(** * Textify backend: OTP issuance/verification and profile records

    A shallow embedding of the five request handlers of [backend/server.js]
    (the copy in [server.js] has the same handler bodies) and the
    properties stated about them.

    The two stores are the object literals [otpStore = {}] and
    [userStore = {}].  They are indexed with request-supplied keys, so a
    lookup [store[key]] sees the object's own properties and, behind them,
    whatever the prototype chain provides; an assignment to the key
    ["__proto__"] goes through the accessor of [Object.prototype] and
    replaces the store's prototype instead of creating a property.  The
    embedding keeps both parts: a finite map for the own properties and a
    slot for the prototype.

    Modelling boundary: request fields range over the JSON primitives
    (no arrays or nested objects); numbers are integer-valued and printed
    in plain decimal; Express, Twilio and multer appear only through what
    the handlers observe of them. *)

From stdpp Require Import gmap strings pretty.
From Stdlib Require Import ZArith Lia Ascii String.

Local Open Scope string_scope.
Local Open Scope Z_scope.

(** ** JavaScript values carried by a request *)

Module Js.

Inductive JsVal : Type :=
  | JUndefined
  | JNull
  | JBool (b : bool)
  | JNum (n : Z)
  | JStr (s : string).

#[global] Instance JsVal_eq_dec : EqDecision JsVal.
Proof. solve_decision. Defined.

(** [ToBoolean]: what [if (v)] and [!v] test. *)
Definition truthy (v : JsVal) : bool :=
  match v with
  | JUndefined | JNull => false
  | JBool b => b
  | JNum n => negb (Z.eqb n 0)
  | JStr s => negb (String.eqb s EmptyString)
  end.

(** [a === b]: same type and same value, no conversion. *)
Definition strict_eq (a b : JsVal) : bool := bool_decide (a = b).

(** [a || b] *)
Definition or_else (a b : JsVal) : JsVal := if truthy a then a else b.

(** [Number.prototype.toString] on an integer. *)
Definition Number_toString (n : Z) : string := pretty n.

(** [ToPropertyKey]: the string under which [obj[v]] is looked up. *)
Definition ToPropertyKey (v : JsVal) : string :=
  match v with
  | JUndefined => "undefined"
  | JNull => "null"
  | JBool true => "true"
  | JBool false => "false"
  | JNum n => Number_toString n
  | JStr s => s
  end.

End Js.
Import Js.

(** ** Objects used as maps *)

(** The names [Object.prototype] defines.  All but ["__proto__"] are
    writable data properties holding functions; ["__proto__"] is an
    accessor whose getter returns, and whose setter replaces, the
    prototype of the receiver. *)
Definition builtin_functions : list string :=
  [ "constructor"; "__defineGetter__"; "__defineSetter__"; "hasOwnProperty";
    "__lookupGetter__"; "__lookupSetter__"; "isPrototypeOf";
    "propertyIsEnumerable"; "toString"; "valueOf"; "toLocaleString" ].

Definition proto_key : string := "__proto__".

(** An object literal [{}] filled by [store[key] = record]: its own
    properties and, once a record has been assigned under ["__proto__"],
    that record as its prototype ([None]: still [Object.prototype]). *)
Record Store (A : Type) : Type := mkStore {
  own : gmap string A;
  proto : option A
}.
Arguments mkStore {A} _ _.
Arguments own {A} _.
Arguments proto {A} _.

Definition empty_store {A} : Store A := mkStore ∅ None.

(** What the expression [store[key]] evaluates to. *)
Inductive Ref (A : Type) : Type :=
  | OwnRec (r : A)          (* a record held as own property *)
  | ProtoRec (r : A)        (* the record installed as prototype *)
  | Prim (v : JsVal)        (* a primitive found along the chain *)
  | ObjectPrototype         (* [Object.prototype] itself *)
  | Builtin (f : string).   (* a function of [Object.prototype] *)
Arguments OwnRec {A} _.
Arguments ProtoRec {A} _.
Arguments Prim {A} _.
Arguments ObjectPrototype {A}.
Arguments Builtin {A} _.

Definition ref_truthy {A} (r : Ref A) : bool :=
  match r with
  | Prim v => truthy v
  | _ => true
  end.

Definition record_of {A} (r : Ref A) : option A :=
  match r with
  | OwnRec x | ProtoRec x => Some x
  | _ => None
  end.

Section StoreOps.
Context {A : Type}.
(** Own properties of a record, by name. *)
Variable fields : A → string → option JsVal.
(** Properties added to [Object.prototype] at run time. *)
Variable extras : gmap string JsVal.

(** [Object.prototype[key]] for a key other than ["__proto__"]. *)
Definition object_prototype_get (key : string) : Ref A :=
  match extras !! key with
  | Some v => Prim v
  | None =>
      if bool_decide (key ∈ builtin_functions) then Builtin key
      else Prim JUndefined
  end.

(** [store[key]] *)
Definition store_get (s : Store A) (key : string) : Ref A :=
  match own s !! key with
  | Some r => OwnRec r
  | None =>
      if bool_decide (key = proto_key) then
        match proto s with
        | Some r => ProtoRec r
        | None => ObjectPrototype
        end
      else
        match proto s with
        | Some r =>
            match fields r key with
            | Some v => Prim v
            | None => object_prototype_get key
            end
        | None => object_prototype_get key
        end
  end.
End StoreOps.

(** [store[key] = r]: every inherited property but ["__proto__"] is a
    writable data property, so the assignment creates or overwrites an own
    property; under ["__proto__"] the setter makes [r] the prototype. *)
Definition store_set {A} (s : Store A) (key : string) (r : A) : Store A :=
  if bool_decide (key = proto_key) then mkStore (own s) (Some r)
  else mkStore (<[key := r]> (own s)) (proto s).

(** [delete store[key]]: removes an own property, nothing else. *)
Definition store_delete {A} (s : Store A) (key : string) : Store A :=
  mkStore (delete key (own s)) (proto s).

(** ** Records *)

Record OtpRecord : Type := mkOtp {
  otp : string;
  expiry : Z
}.

Record Profile : Type := mkProfile {
  name : JsVal;
  profilePicture : option string;   (* [None]: [null] *)
  about : option JsVal              (* [None]: no such property *)
}.

Definition otp_fields (r : OtpRecord) (key : string) : option JsVal :=
  if bool_decide (key = "otp") then Some (JStr (otp r))
  else if bool_decide (key = "expiry") then Some (JNum (expiry r))
  else None.

Definition path_value (p : option string) : JsVal :=
  match p with
  | Some s => JStr s
  | None => JNull
  end.

Definition profile_fields (r : Profile) (key : string) : option JsVal :=
  if bool_decide (key = "name") then Some (name r)
  else if bool_decide (key = "profilePicture") then
    Some (path_value (profilePicture r))
  else if bool_decide (key = "about") then about r
  else None.

(** ** Process state *)

Record World : Type := mkWorld {
  otpStore : Store OtpRecord;
  userStore : Store Profile;
  (** properties the profile update has put on [Object.prototype] *)
  objectPrototype : gmap string JsVal;
  (** properties it has put on the functions of [Object.prototype],
      by function and property name *)
  builtins : gmap (string * string) JsVal
}.

Definition initial : World := mkWorld empty_store empty_store ∅ ∅.

Definition otp_lookup (w : World) (key : string) : Ref OtpRecord :=
  store_get otp_fields (objectPrototype w) (otpStore w) key.

Definition user_lookup (w : World) (key : string) : Ref Profile :=
  store_get profile_fields (objectPrototype w) (userStore w) key.

Definition with_otpStore (w : World) (s : Store OtpRecord) : World :=
  mkWorld s (userStore w) (objectPrototype w) (builtins w).

Definition with_userStore (w : World) (s : Store Profile) : World :=
  mkWorld (otpStore w) s (objectPrototype w) (builtins w).

(** ** Responses *)

Record Response : Type := mkResponse {
  status : Z;
  success : bool;
  message : option string;
  user : option (Ref Profile)
}.

(** [res.status(code).json({ success, message })] *)
Definition reply (code : Z) (ok : bool) (msg : string) : Response :=
  mkResponse code ok (Some msg) None.

(** ** Error-handling middleware *)

(** The part of a thrown error object the middleware reads
    ([None]: the property is undefined). *)
Record JsError : Type := mkError {
  detail : string;                (* name, message, stack: logged only *)
  clientMessage : option string;
  statusCode : option Z
}.

(** [app.use((err, req, res, next) => ...)] *)
Definition error_handler (err : JsError) : Response :=
  let clientMessage :=
    match clientMessage err with
    | Some m =>
        if String.eqb m EmptyString then "An internal server error occurred."
        else m
    | None => "An internal server error occurred."
    end in
  let statusCode :=
    match statusCode err with
    | Some c => if Z.eqb c 0 then 500 else c
    | None => 500
    end in
  reply statusCode false clientMessage.

(** Reading a property of [undefined] throws; Express passes what a
    handler throws to the error middleware. *)
Definition TypeError (what : string) : JsError := mkError what None None.

(** ** OTP issuer *)

(** [crypto.randomInt(min, max)]: Node reduces an accepted 48-bit sample
    [x >= 0] to [(x % range) + min] with [range = max - min]; [max] is
    not itself returned. *)
Definition randomInt (min max : Z) (x : Z) : Z := x mod (max - min) + min.

(** The time to live added to the clock, in milliseconds. *)
Definition TTL : Z := 5 * 60 * 1000.

(** Outcome of [await client.messages.create(...)]. *)
Inductive SmsResult : Type :=
  | SmsSent (sid : string)
  | SmsFailed (error : JsError).

(** [crypto.randomInt(100000, 999999).toString()] *)
Definition generate_otp (x : Z) : string :=
  Number_toString (randomInt 100000 999999 x).

(** [POST /api/send-otp], with the clock reading [now], the random
    sample [x] and the outcome [sms] of the delivery call.  The record is
    written before the handler awaits the delivery and nothing is written
    after it, so the handler is one step on the state. *)
Definition send_otp (w : World) (now x : Z) (sms : SmsResult)
    (phoneNumber : JsVal) : World * Response :=
  if negb (truthy phoneNumber) then
    (w, reply 400 false "Phone number is required.")
  else
    let otp := generate_otp x in
    let expiry := now + TTL in
    let w' :=
      with_otpStore w
        (store_set (otpStore w) (ToPropertyKey phoneNumber) (mkOtp otp expiry)) in
    match sms with
    | SmsSent _ => (w', reply 200 true "OTP sent successfully.")
    | SmsFailed error =>
        (w', error_handler
               (mkError (detail error)
                  (Some "Failed to send OTP. Please check the phone number and try again.")
                  (statusCode error)))
    end.

(** ** OTP verifier *)

Definition Required : Response :=
  reply 400 false "Phone number and OTP are required.".
Definition NotFound : Response :=
  reply 400 false "OTP not found. Please request a new one.".
Definition Expired : Response :=
  reply 400 false "OTP has expired. Please request a new one.".
Definition Mismatch : Response := reply 400 false "Invalid OTP.".
Definition Verified : Response :=
  reply 200 true "Phone number verified successfully.".

(** [POST /api/verify-otp] at clock reading [now].  When the lookup
    yields something that is not an OTP record, [storedOtpData.expiry] is
    undefined, the comparison with it is false, and
    [storedOtpData.otp.toString()] throws. *)
Definition verify_otp (w : World) (now : Z) (phoneNumber otp_in : JsVal)
    : World * Response :=
  if negb (truthy phoneNumber) || negb (truthy otp_in) then (w, Required)
  else
    let key := ToPropertyKey phoneNumber in
    let storedOtpData := otp_lookup w key in
    if negb (ref_truthy storedOtpData) then (w, NotFound)
    else
      match record_of storedOtpData with
      | Some r =>
          if Z.gtb now (expiry r) then (w, Expired)
          else if strict_eq (JStr (otp r)) otp_in then
            (with_otpStore w (store_delete (otpStore w) key), Verified)
          else (w, Mismatch)
      | None =>
          (w, error_handler
                (TypeError "Cannot read properties of undefined (reading 'toString')"))
      end.

(** ** Profile manager *)

Definition UserNotFound : Response := reply 404 false "User not found.".

(** [const { field } = req.body]: the body's own property when the
    request sends one ([sent] is [JUndefined] for a field it leaves out),
    otherwise what the body inherits.  A JSON body is a plain object, with
    [Object.prototype] behind it.  The body multer builds for a multipart
    request, the only kind that carries a file, has no prototype; a
    multipart request without a file that leaves a field out behaves as
    the JSON request sending [null] for it.  Only the profile field names
    are ever found on [Object.prototype], so [phoneNumber] and [otp] are
    what the request sends. *)
Definition body_field (w : World) (file : option string) (field : string)
    (sent : JsVal) : JsVal :=
  match sent, file with
  | JUndefined, None => default JUndefined (objectPrototype w !! field)
  | _, _ => sent
  end.

(** [POST /api/profile]; [file] is [req.file.path] when a picture was
    uploaded. *)
Definition post_profile (w : World) (name phoneNumber : JsVal)
    (file : option string) : World * Response :=
  let name := body_field w file "name" name in
  if negb (truthy name) || negb (truthy phoneNumber) then
    (w, reply 400 false "Name and phone number are required.")
  else
    let profilePicturePath := file in
    (with_userStore w
       (store_set (userStore w) (ToPropertyKey phoneNumber)
          (mkProfile name profilePicturePath None)),
     reply 200 true "Profile updated successfully.").

(** The three guarded assignments of the update, on a profile record;
    [name'] and [about'] are the request's [name] and [about]. *)
Definition assign_fields (name' about' : JsVal) (file : option string)
    (user : Profile) : Profile :=
  let user :=
    if truthy name' then mkProfile name' (profilePicture user) (about user)
    else user in
  let user :=
    if truthy about' then mkProfile (name user) (profilePicture user) (Some about')
    else user in
  match file with
  | Some path => mkProfile (name user) (Some path) (about user)
  | None => user
  end.

(** The same assignments on an object that is not a profile record;
    [prop] names the object's properties in the map holding them, and
    [writable_name] is false for a function, whose own [name] is
    read-only (the assignment is dropped outside strict mode). *)
Definition assign_extras `{Countable K} (prop : string → K)
    (writable_name : bool) (name about : JsVal) (file : option string)
    (props : gmap K JsVal) : gmap K JsVal :=
  let props :=
    if truthy name && writable_name then <[prop "name" := name]> props
    else props in
  let props :=
    if truthy about then <[prop "about" := about]> props else props in
  match file with
  | Some path => <[prop "profilePicture" := JStr path]> props
  | None => props
  end.

(** The update once [name] and [about] are read from the body: the
    assignments land on whatever object [userStore[phoneNumber]] is; on a
    primitive they are dropped. *)
Definition update_profile (w : World) (phoneNumber : string)
    (name about : JsVal) (file : option string) : World * Response :=
  let user := user_lookup w phoneNumber in
  if negb (ref_truthy user) then (w, UserNotFound)
  else
    let w' :=
      match user with
      | OwnRec r =>
          with_userStore w
            (mkStore (<[phoneNumber := assign_fields name about file r]>
                        (own (userStore w)))
                     (proto (userStore w)))
      | ProtoRec r =>
          with_userStore w
            (mkStore (own (userStore w)) (Some (assign_fields name about file r)))
      | ObjectPrototype =>
          mkWorld (otpStore w) (userStore w)
            (assign_extras id true name about file (objectPrototype w))
            (builtins w)
      | Builtin f =>
          mkWorld (otpStore w) (userStore w) (objectPrototype w)
            (assign_extras (pair f) false name about file (builtins w))
      | Prim _ => w
      end in
    (w', mkResponse 200 true (Some "Profile updated successfully.")
           (Some (user_lookup w' phoneNumber))).

(** [PUT /api/profile/:phoneNumber]: [name] and [about] are what the
    request sends ([JUndefined]: left out), [file] is [req.file.path]
    when a picture was uploaded. *)
Definition put_profile (w : World) (phoneNumber : string) (name about : JsVal)
    (file : option string) : World * Response :=
  let name := body_field w file "name" name in
  let about := body_field w file "about" about in
  update_profile w phoneNumber name about file.

(** [GET /api/profile/:phoneNumber] *)
Definition get_profile (w : World) (phoneNumber : string) : Response :=
  let user := user_lookup w phoneNumber in
  if ref_truthy user then mkResponse 200 true None (Some user)
  else UserNotFound.

(** ** The server as a state machine *)

Inductive Request : Type :=
  | SendOtp (now x : Z) (sms : SmsResult) (phoneNumber : JsVal)
  | VerifyOtp (now : Z) (phoneNumber otp_in : JsVal)
  | PostProfile (name phoneNumber : JsVal) (file : option string)
  | PutProfile (phoneNumber : string) (name about : JsVal) (file : option string)
  | GetProfile (phoneNumber : string).

Definition handle (w : World) (req : Request) : World * Response :=
  match req with
  | SendOtp now x sms phoneNumber => send_otp w now x sms phoneNumber
  | VerifyOtp now phoneNumber otp_in => verify_otp w now phoneNumber otp_in
  | PostProfile name phoneNumber file => post_profile w name phoneNumber file
  | PutProfile phoneNumber name about file =>
      put_profile w phoneNumber name about file
  | GetProfile phoneNumber => (w, get_profile w phoneNumber)
  end.

(** States the process can be in after serving some requests. *)
Inductive reachable : World → Prop :=
  | reach_initial : reachable initial
  | reach_handle w req : reachable w → reachable (handle w req).1.

(** ** Predicates used in the statements *)

Definition is_digit (c : ascii) : bool :=
  bool_decide (c ∈ ["0"; "1"; "2"; "3"; "4"; "5"; "6"; "7"; "8"; "9"]%char).

Fixpoint all_digits (s : string) : bool :=
  match s with
  | EmptyString => true
  | String c s' => is_digit c && all_digits s'
  end.

(** The records a store holds: own properties and the prototype slot. *)
Definition holds {A} (s : Store A) (r : A) : Prop :=
  (∃ key, own s !! key = Some r) ∨ proto s = Some r.

(** Assignment never creates an own property named ["__proto__"], and
    every stored code was produced by the generator. *)
Definition wf (w : World) : Prop :=
  own (otpStore w) !! proto_key = None ∧
  own (userStore w) !! proto_key = None ∧
  ∀ r, holds (otpStore w) r → ∃ x, otp r = generate_otp x.

(** Keys that reach nothing along the prototype chain of either store. *)
Definition plain_key (w : World) (key : string) : Prop :=
  key ≠ proto_key ∧ (key ∉ builtin_functions) ∧
  objectPrototype w !! key = None ∧
  (key ∉ ["otp"; "expiry"; "name"; "about"; "profilePicture"]).

(** ** Sample states *)

(** A code issued for ["+15551234"] at clock 1000 from sample 23456: the
    code is ["123456"] and expires at 301000. *)
Definition issued : World :=
  (send_otp initial 1000 23456 (SmsSent "SM1") (JStr "+15551234")).1.

(** A profile created with name ["A"] for ["+1"], no picture. *)
Definition created : World :=
  (post_profile initial (JStr "A") (JStr "+1") None).1.

(** After that, an update addressed to ["__proto__"] that sends the name
    ["x"]: [Object.prototype] now has a [name]. *)
Definition polluted : World :=
  (put_profile created "__proto__" (JStr "x") JUndefined None).1.

(** ** Serving requests in sequence *)

(** The requests of a list, served in order from state [w]: the final
    state and the replies. *)
Fixpoint run (w : World) (reqs : list Request) : World * list Response :=
  match reqs with
  | [] => (w, [])
  | req :: reqs' =>
      let step := handle w req in
      let rest := run step.1 reqs' in
      (rest.1, step.2 :: rest.2)
  end.

(** A send-otp request whose delivery call fails. *)
Definition failed_delivery (req : Request) : bool :=
  match req with
  | SendOtp _ _ (SmsFailed _) _ => true
  | _ => false
  end.

(** ** Names along the prototype chain *)

(** The properties the profile handlers assign. *)
Definition profile_names : list string := ["name"; "about"; "profilePicture"].

(** Every name a lookup can find without an own property of that name:
    ["__proto__"], the functions of [Object.prototype], and the fields
    of a record standing in as prototype or copied onto
    [Object.prototype]. *)
Definition reserved_names : list string :=
  proto_key :: builtin_functions ++ ["otp"; "expiry"] ++ profile_names.

(** [Object.prototype] has gained nothing but profile fields, and its
    functions nothing but an about text or a picture path. *)
Definition pollution_bounded (w : World) : Prop :=
  (∀ key v, objectPrototype w !! key = Some v → key ∈ profile_names) ∧
  (∀ f p v, builtins w !! (f, p) = Some v →
     f ∈ builtin_functions ∧ p ∈ ["about"; "profilePicture"]).

(** A profile record with a name and, when it has an about text, a
    non-empty one. *)
Definition profile_ok (r : Profile) : Prop :=
  truthy (name r) = true ∧ ∀ a, about r = Some a → truthy a = true.

(** ** CORS allow-list ([server.js]) *)

Definition allowedOrigins : list string :=
  [ "https://textify.onrender.com";
    "https://textify-app.onrender.com";
    "http://localhost:3000";
    "http://127.0.0.1:5500" ].

(** [Array.prototype.indexOf] on strings, counting from [i]: the index of
    the first element [===] to [x], or [-1]. *)
Fixpoint indexOf_from (i : Z) (l : list string) (x : string) : Z :=
  match l with
  | [] => -1
  | y :: l' => if String.eqb y x then i else indexOf_from (i + 1) l' x
  end.

Definition indexOf (l : list string) (x : string) : Z := indexOf_from 0 l x.

(** The [origin] function given to [cors]: the arguments it passes to
    its callback, an error message if any and the allow flag.  [origin]
    is the request's Origin header, [None] when there is none. *)
Definition cors_origin (origin : option string) : option string * bool :=
  match origin with
  | None => (None, true)
  | Some o =>
      if String.eqb o EmptyString then (None, true)
      else if Z.eqb (indexOf allowedOrigins o) (-1) then
        (Some "The CORS policy for this site does not allow access from the specified Origin.",
         false)
      else (None, true)
  end.

(** ** Upload file names *)

(** The [filename] callback of the multer storage:
    [`${Date.now()}-${path.extname(file.originalname)}`], with the clock
    reading and the extension [path.extname] returned. *)
Definition upload_filename (now : Z) (extname : string) : string :=
  Number_toString now +:+ "-" +:+ extname.

(** ** Request families *)

(** Verification requests for one phone number, one per guess, each with
    the clock reading at which it is served. *)
Definition guess_requests (phoneNumber : JsVal) (guesses : list (Z * JsVal))
    : list Request :=
  map (λ g, VerifyOtp g.1 phoneNumber g.2) guesses.

Definition otp_request (req : Request) : bool :=
  match req with
  | SendOtp _ _ _ _ | VerifyOtp _ _ _ => true
  | _ => false
  end.

(** * Properties *)

(** ** Generated codes *)

Lemma pretty_N_char_digit d : is_digit (pretty_N_char d) = true.
Proof.
  unfold pretty_N_char; repeat case_match; reflexivity.
Qed.

Lemma randomInt_range x :
  100000 ≤ randomInt 100000 999999 x < 999999.
Proof.
  unfold randomInt.
  pose proof (Z.mod_pos_bound x (999999 - 100000)). lia.
Qed.

Lemma pretty_six_digits (m : N) :
  (100000 ≤ m ≤ 999999)%N →
  String.length (pretty m) = 6%nat ∧ all_digits (pretty m) = true.
Proof.
  intros Hm. unfold pretty, pretty_N.
  rewrite decide_False by lia.
  do 6 (rewrite pretty_N_go_step
          by (first [lia | rewrite ?N.Div0.div_div; apply N.div_str_pos; lia])).
  rewrite !N.Div0.div_div, (N.div_small m) by lia.
  rewrite pretty_N_go_0. split; [reflexivity|].
  cbn [all_digits]. rewrite !pretty_N_char_digit. reflexivity.
Qed.

Lemma generate_otp_six_digits x :
  String.length (generate_otp x) = 6%nat ∧ all_digits (generate_otp x) = true.
Proof.
  unfold generate_otp, Number_toString.
  pose proof (randomInt_range x) as Hr.
  destruct (randomInt 100000 999999 x) as [|p|p] eqn:Hn; try lia.
  change (pretty (Z.pos p)) with (pretty (N.pos p)).
  apply pretty_six_digits. lia.
Qed.

Lemma generate_otp_truthy x : truthy (JStr (generate_otp x)) = true.
Proof.
  destruct (generate_otp_six_digits x) as [Hlen _].
  simpl. destruct (generate_otp x); [discriminate Hlen | reflexivity].
Qed.

(** Every value from 100000 up to 999998 is the outcome of some sample,
    and of one residue only: a sample uniform over the residues gives a
    code uniform over these 899999 values. *)
Lemma randomInt_onto n :
  100000 ≤ n < 999999 → randomInt 100000 999999 (n - 100000) = n.
Proof.
  intros Hn. unfold randomInt. rewrite Z.mod_small by lia. lia.
Qed.

Lemma randomInt_one_residue x y :
  randomInt 100000 999999 x = randomInt 100000 999999 y →
  x mod 899999 = y mod 899999.
Proof. unfold randomInt. change (999999 - 100000) with 899999. lia. Qed.

(** ** Lookup after assignment and deletion *)

Section StoreFacts.
Context {A : Type}.
Variable fields : A → string → option JsVal.
Variable extras : gmap string JsVal.

Lemma store_get_set (s : Store A) key r :
  own s !! proto_key = None →
  record_of (store_get fields extras (store_set s key r) key) = Some r.
Proof.
  intros Hown. unfold store_set, store_get.
  case_bool_decide as Hk; cbn [own proto].
  - subst key. by rewrite Hown.
  - by rewrite lookup_insert_eq.
Qed.

Lemma store_set_own_proto (s : Store A) key r :
  own s !! proto_key = None → own (store_set s key r) !! proto_key = None.
Proof.
  intros Hown. unfold store_set. case_bool_decide; simpl; [done|].
  by rewrite lookup_insert_ne.
Qed.

Lemma store_delete_own_proto (s : Store A) key :
  own s !! proto_key = None → own (store_delete s key) !! proto_key = None.
Proof.
  intros Hown. simpl. destruct (decide (key = proto_key)) as [->|].
  - apply lookup_delete_eq.
  - by rewrite lookup_delete_ne.
Qed.


Lemma record_of_holds (s : Store A) key r :
  record_of (store_get fields extras s key) = Some r → holds s r.
Proof.
  unfold store_get, holds. destruct (own s !! key) eqn:Hk; simpl.
  - intros [= ->]. eauto.
  - case_bool_decide.
    + destruct (proto s); simpl; [intros [= ->]; eauto | done].
    + destruct (proto s) as [p|]; [destruct (fields p key)|];
        unfold object_prototype_get; repeat case_match; done.
Qed.

Lemma holds_store_set (s : Store A) key r r' :
  holds (store_set s key r) r' → r' = r ∨ holds s r'.
Proof.
  unfold store_set, holds. case_bool_decide; simpl.
  - intros [[k Hk]|[= ->]]; eauto.
  - intros [[k Hk]|Hp]; [|eauto].
    destruct (decide (key = k)) as [->|Hne].
    + rewrite lookup_insert_eq in Hk. left. congruence.
    + rewrite lookup_insert_ne in Hk by done. eauto.
Qed.

Lemma holds_store_delete (s : Store A) key r :
  holds (store_delete s key) r → holds s r.
Proof.
  unfold store_delete, holds; simpl. intros [[k Hk]|Hp]; [|eauto].
  apply lookup_delete_Some in Hk as [_ Hk]. eauto.
Qed.
End StoreFacts.

(** ** Invariants of reachable states *)


Lemma wf_initial : wf initial.
Proof.
  repeat split; try done.
  intros r [[k Hk]|Hp]; simpl in *; [by rewrite lookup_empty in Hk | done].
Qed.

Lemma wf_send_otp w now x sms phoneNumber :
  wf w → wf (send_otp w now x sms phoneNumber).1.
Proof.
  intros (Ho & Hu & Hc). unfold send_otp.
  destruct (negb (truthy phoneNumber)); [done|].
  assert (wf (with_otpStore w
                (store_set (otpStore w) (ToPropertyKey phoneNumber)
                   (mkOtp (generate_otp x) (now + TTL))))) as Hwf.
  { repeat split; simpl; [by apply store_set_own_proto | done |].
    intros r [->|Hr]%holds_store_set; simpl; eauto. }
  by destruct sms.
Qed.

Lemma wf_verify_otp w now phoneNumber otp_in :
  wf w → wf (verify_otp w now phoneNumber otp_in).1.
Proof.
  intros (Ho & Hu & Hc). unfold verify_otp.
  repeat case_match; simpl; try done.
  repeat split; simpl; [by apply (store_delete_own_proto) | done |].
  intros r Hr%holds_store_delete. auto.
Qed.

Lemma wf_post_profile w name' phoneNumber file :
  wf w → wf (post_profile w name' phoneNumber file).1.
Proof.
  intros (Ho & Hu & Hc). unfold post_profile.
  case_match; simpl; [done|].
  repeat split; simpl; [done | by apply store_set_own_proto | done].
Qed.

Lemma wf_put_profile w phoneNumber name' about' file :
  wf w → wf (put_profile w phoneNumber name' about' file).1.
Proof.
  intros (Ho & Hu & Hc). unfold put_profile, update_profile.
  case_match; simpl; [done|].
  destruct (user_lookup w phoneNumber) eqn:Hl; simpl; try done.
  repeat split; simpl; try done.
  unfold user_lookup, store_get, object_prototype_get in Hl.
  destruct (own (userStore w) !! phoneNumber) eqn:Hk; [|repeat case_match; done].
  rewrite lookup_insert_ne; [done|]. intros ->. congruence.
Qed.

Lemma reachable_wf w : reachable w → wf w.
Proof.
  induction 1 as [|w req _ IH]; [apply wf_initial|].
  destruct req; simpl;
    auto using wf_send_otp, wf_verify_otp, wf_post_profile, wf_put_profile.
Qed.

(** ** The verifier on a stored record *)

(** Settle the verifier's [===] test once both sides are known. *)
Ltac same_code := unfold strict_eq; rewrite bool_decide_true by done.
Ltac other_code := unfold strict_eq; rewrite bool_decide_false by congruence.

Lemma gtb_within now limit : now ≤ limit → Z.gtb now limit = false.
Proof. intros. destruct (Z.gtb_spec now limit); [lia | done]. Qed.

Lemma gtb_past now limit : limit < now → Z.gtb now limit = true.
Proof. intros. destruct (Z.gtb_spec now limit); [done | lia]. Qed.

Lemma otp_lookup_record_truthy w key r :
  record_of (otp_lookup w key) = Some r → ref_truthy (otp_lookup w key) = true.
Proof. by destruct (otp_lookup w key). Qed.

Lemma verify_otp_record w now phoneNumber otp_in r :
  truthy phoneNumber = true → truthy otp_in = true →
  record_of (otp_lookup w (ToPropertyKey phoneNumber)) = Some r →
  verify_otp w now phoneNumber otp_in =
    if Z.gtb now (expiry r) then (w, Expired)
    else if strict_eq (JStr (otp r)) otp_in then
      (with_otpStore w (store_delete (otpStore w) (ToPropertyKey phoneNumber)),
       Verified)
    else (w, Mismatch).
Proof.
  intros HP Hv Hr. unfold verify_otp.
  rewrite HP, Hv, (otp_lookup_record_truthy _ _ _ Hr), Hr. reflexivity.
Qed.

Lemma otp_lookup_send_otp w now x sms phoneNumber :
  wf w → truthy phoneNumber = true →
  record_of (otp_lookup (send_otp w now x sms phoneNumber).1
               (ToPropertyKey phoneNumber))
  = Some (mkOtp (generate_otp x) (now + TTL)).
Proof.
  intros (Ho & _) HP. unfold send_otp. rewrite HP. simpl.
  assert (record_of
            (otp_lookup
               (with_otpStore w
                  (store_set (otpStore w) (ToPropertyKey phoneNumber)
                     (mkOtp (generate_otp x) (now + TTL))))
               (ToPropertyKey phoneNumber))
          = Some (mkOtp (generate_otp x) (now + TTL))) as Hget
    by (by apply store_get_set).
  by destruct sms.
Qed.

(** A verification that does not succeed changes nothing. *)
Lemma verify_otp_failure_frame w now phoneNumber otp_in :
  success (verify_otp w now phoneNumber otp_in).2 = false →
  (verify_otp w now phoneNumber otp_in).1 = w.
Proof.
  unfold verify_otp. repeat case_match; simpl; done.
Qed.

(** ** Claims about the OTP subsystem *)

(** C2. For a phone number with a stored OTP record, a verification that
    fails leaves the state as it was; after a Mismatch the stored code
    still verifies while the record has not expired, and after an Expired
    result a later verification finds the record again and answers
    Expired, not NotFound. *)
Theorem failed_verification_keeps_store
    (w : World) (now : Z) (phoneNumber otp_in : JsVal) (r : OtpRecord) :
  reachable w →
  record_of (otp_lookup w (ToPropertyKey phoneNumber)) = Some r →
  success (verify_otp w now phoneNumber otp_in).2 = false →
  (verify_otp w now phoneNumber otp_in).1 = w ∧
  ((verify_otp w now phoneNumber otp_in).2 = Mismatch →
   ∀ now', now' ≤ expiry r →
     (verify_otp (verify_otp w now phoneNumber otp_in).1 now' phoneNumber
        (JStr (otp r))).2 = Verified) ∧
  ((verify_otp w now phoneNumber otp_in).2 = Expired →
   ∀ now' otp', now ≤ now' → truthy otp' = true →
     (verify_otp (verify_otp w now phoneNumber otp_in).1 now' phoneNumber
        otp').2 = Expired).
Proof.
  intros Hreach Hr Hfail.
  pose proof (verify_otp_failure_frame _ _ _ _ Hfail) as Hframe.
  rewrite Hframe. split; [done|].
  destruct (reachable_wf _ Hreach) as (_ & _ & Hcodes).
  destruct (Hcodes r (record_of_holds _ _ _ _ _ Hr)) as [x Hx].
  assert (truthy phoneNumber = true ∧ truthy otp_in = true
          ∨ (verify_otp w now phoneNumber otp_in).2 = Required) as [[HP Hv]|Hq].
  { unfold verify_otp.
    destruct (truthy phoneNumber), (truthy otp_in); simpl; auto. }
  - rewrite (verify_otp_record _ now _ _ r HP Hv Hr). split.
    + intros _ now' Hnow'.
      rewrite (verify_otp_record _ now' _ _ r HP)
        by (by rewrite ?Hx, ?generate_otp_truthy).
      rewrite gtb_within by done. by same_code.
    + intros Hexp now' otp' Hle Hv'.
      rewrite (verify_otp_record _ now' _ _ r HP Hv' Hr).
      destruct (Z.gtb_spec now (expiry r)) as [Hgt|Hngt].
      * by rewrite gtb_past by lia.
      * repeat case_match; done.
  - rewrite Hq. split; intros; discriminate.
Qed.

Lemma reachable_issued : reachable issued.
Proof.
  apply (reach_handle initial
           (SendOtp 1000 23456 (SmsSent "SM1") (JStr "+15551234"))).
  apply reach_initial.
Defined.

Lemma failed_verification_keeps_store_witness :
  (verify_otp issued 2000 (JStr "+15551234") (JStr "000000")).1 = issued ∧
  (verify_otp
     (verify_otp issued 2000 (JStr "+15551234") (JStr "000000")).1
     3000 (JStr "+15551234") (JStr "123456")).2 = Verified ∧
  (verify_otp
     (verify_otp issued 400000 (JStr "+15551234") (JStr "123456")).1
     400001 (JStr "+15551234") (JStr "123456")).2 = Expired.
Proof.
  destruct (failed_verification_keeps_store issued 2000
              (JStr "+15551234") (JStr "000000") (mkOtp "123456" 301000))
    as (Hsame & Hretry & _).
  { apply reachable_issued. }
  { vm_compute; reflexivity. }
  { vm_compute; reflexivity. }
  destruct (failed_verification_keeps_store issued 400000
              (JStr "+15551234") (JStr "123456") (mkOtp "123456" 301000))
    as (_ & _ & Hagain).
  { apply reachable_issued. }
  { vm_compute; reflexivity. }
  { vm_compute; reflexivity. }
  split; [exact Hsame|]. split.
  - apply Hretry; [vm_compute; reflexivity | simpl; lia].
  - apply Hagain; [vm_compute; reflexivity | lia | reflexivity].
Defined.

(** C3. The issuer's code is a string of six decimal digits whose value
    lies between 100000 and 999998: no sample of the random source makes
    it 999999. *)
Theorem generated_code_never_999999 (x : Z) :
  String.length (generate_otp x) = 6%nat ∧
  all_digits (generate_otp x) = true ∧
  100000 ≤ randomInt 100000 999999 x ≤ 999998 ∧
  generate_otp x ≠ "999999".
Proof.
  destruct (generate_otp_six_digits x) as [Hlen Hdig].
  pose proof (randomInt_range x) as Hr.
  repeat split; try done; try lia.
  unfold generate_otp, Number_toString.
  change "999999" with (pretty 999999).
  intros Heq%(inj pretty). lia.
Qed.

(** C4, at the boundary: the code issued at clock 1000 expires at
    301000, and a verification at exactly 301000 with that code is
    answered Verified, not Expired. *)
Lemma verification_at_expiry_succeeds :
  record_of (otp_lookup issued "+15551234") = Some (mkOtp "123456" (1000 + TTL)) ∧
  (verify_otp issued (1000 + TTL) (JStr "+15551234") (JStr "123456")).2
    = Verified ∧
  (verify_otp issued (1000 + TTL) (JStr "+15551234") (JStr "123456")).2
    ≠ Expired.
Proof. vm_compute. repeat split; discriminate. Qed.

(** C4, amended. After a code is issued at clock [now], a verification
    at any clock strictly later than [now + TTL] answers Expired and
    leaves the record in place, whatever is submitted, the stored code
    included. *)
Theorem verification_after_ttl_is_expired
    (w : World) (now x : Z) (sms : SmsResult) (phoneNumber : JsVal) (t : Z) :
  reachable w →
  truthy phoneNumber = true →
  now + TTL < t →
  let w' := (send_otp w now x sms phoneNumber).1 in
  verify_otp w' t phoneNumber (JStr (generate_otp x)) = (w', Expired) ∧
  ∀ otp_in, truthy otp_in = true →
    verify_otp w' t phoneNumber otp_in = (w', Expired).
Proof.
  intros Hreach HP Ht w'.
  pose proof (otp_lookup_send_otp w now x sms phoneNumber
                (reachable_wf _ Hreach) HP) as Hr.
  assert (∀ otp_in, truthy otp_in = true →
            verify_otp w' t phoneNumber otp_in = (w', Expired)) as Hall.
  { intros otp_in Hv. subst w'.
    rewrite (verify_otp_record _ t _ _ _ HP Hv Hr). simpl.
    by rewrite gtb_past by lia. }
  split; [apply Hall, generate_otp_truthy | done].
Qed.

Lemma verification_after_ttl_is_expired_witness :
  verify_otp issued 301001 (JStr "+15551234") (JStr (generate_otp 23456))
    = (issued, Expired) ∧
  ∀ otp_in, truthy otp_in = true →
    verify_otp issued 301001 (JStr "+15551234") otp_in = (issued, Expired).
Proof.
  apply (verification_after_ttl_is_expired initial 1000 23456 (SmsSent "SM1")
           (JStr "+15551234") 301001).
  - apply reach_initial.
  - reflexivity.
  - reflexivity.
Defined.

(** C5. When the SMS delivery fails, the state is the one a successful
    delivery leaves: the record written for the phone number is in the
    store with its code and expiry.  The reply reports failure with the
    fixed client message and carries nothing of the provider's error
    beyond a status code the error object may supply. *)
Theorem delivery_failure_keeps_record
    (w : World) (now x : Z) (error : JsError) (phoneNumber : JsVal) :
  reachable w →
  truthy phoneNumber = true →
  let result := send_otp w now x (SmsFailed error) phoneNumber in
  record_of (otp_lookup result.1 (ToPropertyKey phoneNumber))
    = Some (mkOtp (generate_otp x) (now + TTL)) ∧
  (∀ sid, result.1 = (send_otp w now x (SmsSent sid) phoneNumber).1) ∧
  success result.2 = false ∧
  message result.2
    = Some "Failed to send OTP. Please check the phone number and try again." ∧
  user result.2 = None ∧
  (status result.2 = 500 ∨ Some (status result.2) = statusCode error).
Proof.
  intros Hreach HP result. subst result. split.
  { by apply otp_lookup_send_otp; [apply reachable_wf|]. }
  unfold send_otp. rewrite HP. simpl.
  repeat split; try done.
  unfold error_handler; simpl.
  destruct (statusCode error) as [c|]; [|by left].
  destruct (Z.eqb_spec c 0); simpl; auto.
Qed.

Lemma delivery_failure_keeps_record_witness :
  let error := mkError "RestException 21211: invalid 'To' number" None None in
  let result := send_otp initial 1000 23456 (SmsFailed error) (JStr "+15551234") in
  record_of (otp_lookup result.1 "+15551234")
    = Some (mkOtp (generate_otp 23456) (1000 + TTL)) ∧
  (∀ sid, result.1
          = (send_otp initial 1000 23456 (SmsSent sid) (JStr "+15551234")).1) ∧
  success result.2 = false ∧
  message result.2
    = Some "Failed to send OTP. Please check the phone number and try again." ∧
  user result.2 = None ∧
  (status result.2 = 500 ∨ Some (status result.2) = statusCode error).
Proof.
  apply (delivery_failure_keeps_record initial 1000 23456
           (mkError "RestException 21211: invalid 'To' number" None None)
           (JStr "+15551234")).
  - apply reach_initial.
  - reflexivity.
Defined.

(** C6. The store answers a lookup for a phone number with one record.
    After a second issuance for the same number that record is the new
    one: within its time to live the earlier code, when it differs from
    the new code, is answered Mismatch and leaves the record in place,
    and the new code verifies. *)
Theorem reissue_overwrites
    (w : World) (now1 x1 : Z) (sms1 : SmsResult) (now2 x2 : Z) (sms2 : SmsResult)
    (phoneNumber : JsVal) (t : Z) :
  reachable w →
  truthy phoneNumber = true →
  generate_otp x1 ≠ generate_otp x2 →
  t ≤ now2 + TTL →
  let w1 := (send_otp w now1 x1 sms1 phoneNumber).1 in
  let w2 := (send_otp w1 now2 x2 sms2 phoneNumber).1 in
  record_of (otp_lookup w1 (ToPropertyKey phoneNumber))
    = Some (mkOtp (generate_otp x1) (now1 + TTL)) ∧
  record_of (otp_lookup w2 (ToPropertyKey phoneNumber))
    = Some (mkOtp (generate_otp x2) (now2 + TTL)) ∧
  verify_otp w2 t phoneNumber (JStr (generate_otp x1)) = (w2, Mismatch) ∧
  (verify_otp w2 t phoneNumber (JStr (generate_otp x2))).2 = Verified.
Proof.
  intros Hreach HP Hne Ht w1 w2.
  pose proof (reachable_wf _ Hreach) as Hwf.
  pose proof (otp_lookup_send_otp w now1 x1 sms1 phoneNumber Hwf HP) as Hr1.
  pose proof (otp_lookup_send_otp w1 now2 x2 sms2 phoneNumber
                (wf_send_otp _ _ _ _ _ Hwf) HP) as Hr2.
  fold w1 in Hr1. fold w2 in Hr2.
  repeat split; try done.
  - rewrite (verify_otp_record _ t _ _ _ HP (generate_otp_truthy x1) Hr2).
    simpl. rewrite gtb_within by done. by other_code.
  - rewrite (verify_otp_record _ t _ _ _ HP (generate_otp_truthy x2) Hr2).
    simpl. rewrite gtb_within by done. by same_code.
Qed.

Lemma reissue_overwrites_witness :
  let P := JStr "+15551234" in
  let w1 := (send_otp initial 1000 23456 (SmsSent "SM1") P).1 in
  let w2 := (send_otp w1 5000 554433 (SmsSent "SM2") P).1 in
  record_of (otp_lookup w1 "+15551234")
    = Some (mkOtp (generate_otp 23456) (1000 + TTL)) ∧
  record_of (otp_lookup w2 "+15551234")
    = Some (mkOtp (generate_otp 554433) (5000 + TTL)) ∧
  verify_otp w2 6000 P (JStr (generate_otp 23456)) = (w2, Mismatch) ∧
  (verify_otp w2 6000 P (JStr (generate_otp 554433))).2 = Verified.
Proof.
  apply (reissue_overwrites initial 1000 23456 (SmsSent "SM1")
           5000 554433 (SmsSent "SM2") (JStr "+15551234") 6000).
  - apply reach_initial.
  - reflexivity.
  - vm_compute. discriminate.
  - vm_compute. discriminate.
Defined.

(** C9. The verifier compares with [===].  For a request that passes the
    presence check and finds a record that has not expired, any submitted
    value other than the stored string is answered Mismatch and the
    record stays; a JSON number is such a value, also when it is the
    number whose decimal form is the stored code. *)
Theorem comparison_is_strict
    (w : World) (now : Z) (phoneNumber otp_in : JsVal) (r : OtpRecord) :
  truthy phoneNumber = true →
  truthy otp_in = true →
  record_of (otp_lookup w (ToPropertyKey phoneNumber)) = Some r →
  now ≤ expiry r →
  (otp_in ≠ JStr (otp r) →
   verify_otp w now phoneNumber otp_in = (w, Mismatch)) ∧
  (∀ n, otp_in = JNum n → Number_toString n = otp r →
   verify_otp w now phoneNumber otp_in = (w, Mismatch)).
Proof.
  intros HP Hv Hr Hnow.
  assert (otp_in ≠ JStr (otp r) →
          verify_otp w now phoneNumber otp_in = (w, Mismatch)) as Hstrict.
  { intros Hne. rewrite (verify_otp_record _ now _ _ r HP Hv Hr).
    rewrite gtb_within by done. by other_code. }
  split; [done|]. intros n -> _. by apply Hstrict.
Qed.

Lemma comparison_is_strict_witness :
  verify_otp issued 2000 (JStr "+15551234") (JNum 123456) = (issued, Mismatch).
Proof.
  apply (comparison_is_strict issued 2000 (JStr "+15551234") (JNum 123456)
           (mkOtp "123456" 301000)).
  - reflexivity.
  - reflexivity.
  - vm_compute; reflexivity.
  - simpl; lia.
  - discriminate.
Defined.

(** C1, for the phone number ["__proto__"].  The record is installed as
    the store's prototype; the verifier's [delete] removes no own
    property, so the state after a successful verification is the state
    before it, and the same code is accepted again instead of being
    answered NotFound. *)
Theorem proto_key_code_is_reusable (now x : Z) (sms : SmsResult) :
  let P := JStr "__proto__" in
  let code := JStr (generate_otp x) in
  let w1 := (send_otp initial now x sms P).1 in
  verify_otp w1 now P code = (w1, Verified) ∧
  verify_otp (verify_otp w1 now P code).1 now P code = (w1, Verified) ∧
  (verify_otp (verify_otp w1 now P code).1 now P code).2 ≠ NotFound.
Proof.
  intros P code w1.
  assert (w1 = mkWorld (mkStore ∅ (Some (mkOtp (generate_otp x) (now + TTL))))
                 empty_store ∅ ∅) as Hw1 by (by destruct sms).
  assert (verify_otp w1 now P code = (w1, Verified)) as Hv.
  { rewrite Hw1.
    rewrite (verify_otp_record _ now P code (mkOtp (generate_otp x) (now + TTL)));
      [|done|apply generate_otp_truthy|done].
    simpl. rewrite gtb_within by (unfold TTL; lia). subst code. same_code.
    unfold with_otpStore, store_delete; simpl. by rewrite delete_empty. }
  rewrite Hv. simpl. rewrite Hv. repeat split; done.
Qed.

(** C1, for a phone number that names a function of [Object.prototype].
    The first verification succeeds and deletes the own property; the
    second lookup then finds the inherited function and the request ends
    in the error middleware with status 500, not in NotFound. *)
Lemma inherited_key_second_verification_errors (now x : Z) (sms : SmsResult) :
  let P := JStr "constructor" in
  let code := JStr (generate_otp x) in
  let w1 := (send_otp initial now x sms P).1 in
  verify_otp w1 now P code = (initial, Verified) ∧
  verify_otp initial now P code
    = (initial, reply 500 false "An internal server error occurred.").
Proof.
  intros P code w1.
  assert (w1 = mkWorld
                 (mkStore
                    {["constructor" := mkOtp (generate_otp x) (now + TTL)]} None)
                 empty_store ∅ ∅) as Hw1.
  { subst w1. destruct sms; unfold send_otp; simpl;
      unfold with_otpStore, store_set; simpl; by rewrite insert_empty. }
  split.
  - rewrite Hw1.
    rewrite (verify_otp_record _ now P code (mkOtp (generate_otp x) (now + TTL)));
      [|done|apply generate_otp_truthy|].
    + simpl. rewrite gtb_within by (unfold TTL; lia). subst code. same_code.
      unfold with_otpStore, store_delete; simpl.
      by rewrite delete_singleton_eq.
    + unfold otp_lookup, store_get; simpl. by rewrite lookup_singleton_eq.
  - unfold verify_otp. subst code. rewrite generate_otp_truthy. reflexivity.
Qed.

(** A key that reaches nothing is undefined on [Object.prototype]. *)
Lemma object_prototype_get_plain {A} (w : World) key :
  plain_key w key →
  object_prototype_get (A := A) (objectPrototype w) key = Prim JUndefined.
Proof.
  intros (_ & Hb & He & _). unfold object_prototype_get.
  rewrite He. by rewrite bool_decide_false.
Qed.

(** C1, for every other phone number: issuing, then verifying with the
    stored code before expiry succeeds and deletes the record; the same
    code submitted again is answered NotFound. *)
Lemma plain_key_code_is_single_use
    (w : World) (now x : Z) (sms : SmsResult) (phoneNumber : JsVal) (t t' : Z) :
  reachable w →
  truthy phoneNumber = true →
  plain_key w (ToPropertyKey phoneNumber) →
  t ≤ now + TTL →
  let code := JStr (generate_otp x) in
  let w1 := (send_otp w now x sms phoneNumber).1 in
  let w2 := (verify_otp w1 t phoneNumber code).1 in
  (verify_otp w1 t phoneNumber code).2 = Verified ∧
  own (otpStore w2) !! ToPropertyKey phoneNumber = None ∧
  verify_otp w2 t' phoneNumber code = (w2, NotFound).
Proof.
  intros Hreach HP Hplain Ht code w1 w2. subst code.
  pose proof (reachable_wf _ Hreach) as Hwf.
  pose proof (otp_lookup_send_otp w now x sms phoneNumber Hwf HP) as Hr.
  fold w1 in Hr.
  assert (w2 = with_otpStore w1
                 (store_delete (otpStore w1) (ToPropertyKey phoneNumber))) as Hw2.
  { subst w2. rewrite (verify_otp_record _ t _ _ _ HP (generate_otp_truthy x) Hr).
    simpl. rewrite gtb_within by done. by same_code. }
  assert ((verify_otp w1 t phoneNumber (JStr (generate_otp x))).2 = Verified)
    as Hok.
  { rewrite (verify_otp_record _ t _ _ _ HP (generate_otp_truthy x) Hr).
    simpl. rewrite gtb_within by done. by same_code. }
  assert (own (otpStore w2) !! ToPropertyKey phoneNumber = None) as Hgone.
  { rewrite Hw2. simpl. apply lookup_delete_eq. }
  repeat split; try done.
  assert (objectPrototype w2 = objectPrototype w) as Hop.
  { rewrite Hw2. subst w1. unfold send_otp. rewrite HP. by destruct sms. }
  assert (plain_key w2 (ToPropertyKey phoneNumber)) as Hplain2.
  { destruct Hplain as (? & ? & ? & ?). repeat split; try done. by rewrite Hop. }
  unfold verify_otp. rewrite HP, generate_otp_truthy. simpl.
  assert (otp_lookup w2 (ToPropertyKey phoneNumber) = Prim JUndefined)
    as ->; [|done].
  unfold otp_lookup, store_get. rewrite Hgone.
  destruct Hplain2 as (Hnp & Hnb & Hext & Hnf).
  rewrite bool_decide_false by done.
  rewrite (object_prototype_get_plain w2) by (repeat split; done).
  destruct (proto (otpStore w2)) as [r|]; [|done].
  unfold otp_fields.
  rewrite !bool_decide_false; [done|..]; intros Heq; apply Hnf; rewrite Heq;
    set_solver.
Qed.

(** ** Claims about the profile manager *)

Lemma user_lookup_record_truthy w key r :
  record_of (user_lookup w key) = Some r → ref_truthy (user_lookup w key) = true.
Proof. by destruct (user_lookup w key). Qed.

(** A field the request sends with a truthy value is read as sent. *)
Lemma body_field_truthy w file field v :
  truthy v = true → body_field w file field v = v.
Proof. by destruct v. Qed.

(** While [Object.prototype] has no property of that name, every field
    is read as sent. *)
Lemma body_field_clean w file field v :
  objectPrototype w !! field = None → body_field w file field v = v.
Proof. intros Hf. unfold body_field. rewrite Hf. by destruct v, file. Qed.

(** Where a lookup finds a record, and where the update puts it back. *)
Lemma put_profile_record w phoneNumber name' about' file r :
  record_of (user_lookup w phoneNumber) = Some r →
  record_of (user_lookup (put_profile w phoneNumber name' about' file).1
               phoneNumber)
  = Some (assign_fields (body_field w file "name" name')
            (body_field w file "about" about') file r) ∧
  (∀ key, key ≠ phoneNumber →
     own (userStore (put_profile w phoneNumber name' about' file).1) !! key
     = own (userStore w) !! key) ∧
  otpStore (put_profile w phoneNumber name' about' file).1 = otpStore w.
Proof.
  intros Hr. unfold put_profile, update_profile.
  rewrite (user_lookup_record_truthy _ _ _ Hr). simpl.
  unfold user_lookup, store_get in *.
  destruct (own (userStore w) !! phoneNumber) as [r0|] eqn:Hown; simpl in *.
  - injection Hr as ->. rewrite lookup_insert_eq. simpl.
    split; [done|]. split; [|done].
    intros key Hne. by rewrite lookup_insert_ne.
  - case_bool_decide as Hk.
    + destruct (proto (userStore w)) as [r0|]; [|done].
      injection Hr as ->. simpl. by rewrite Hown.
    + destruct (proto (userStore w)) as [r0|];
        [destruct (profile_fields r0 phoneNumber)|];
        unfold object_prototype_get in Hr; repeat case_match; done.
Qed.

(** C8, in the state [polluted].  An update addressed to ["__proto__"]
    has put the name ["x"] on [Object.prototype]; the JSON body of a
    later update that sends only an about text inherits that name, and
    the record of ["+1"], whose name was ["A"], ends with the name
    ["x"]: a field absent from the request is overwritten. *)
Theorem absent_name_takes_inherited_value :
  record_of (user_lookup polluted "+1") = Some (mkProfile (JStr "A") None None) ∧
  objectPrototype polluted !! "name" = Some (JStr "x") ∧
  record_of
    (user_lookup (put_profile polluted "+1" JUndefined (JStr "hi") None).1 "+1")
  = Some (mkProfile (JStr "x") None (Some (JStr "hi"))) ∧
  user (get_profile (put_profile polluted "+1" JUndefined (JStr "hi") None).1 "+1")
  = Some (OwnRec (mkProfile (JStr "x") None (Some (JStr "hi")))).
Proof. vm_compute. repeat split; reflexivity. Qed.

(** C8, while [Object.prototype] has neither a name nor an about
    property: updating an existing profile record replaces each field
    the request supplies and keeps each field it leaves out; other
    records and the OTP store are untouched.  Creating a profile with
    name ["A"] for ["+1"], updating it with only about ["hi"] and
    fetching ["+1"] returns the record with name ["A"] and about
    ["hi"]. *)
Lemma partial_update_on_clean_prototype
    (w : World) (phoneNumber : string) (name' about' : JsVal)
    (file : option string) (r : Profile) :
  objectPrototype w !! "name" = None →
  objectPrototype w !! "about" = None →
  record_of (user_lookup w phoneNumber) = Some r →
  let w' := (put_profile w phoneNumber name' about' file).1 in
  (∃ r',
     record_of (user_lookup w' phoneNumber) = Some r' ∧
     user (get_profile w' phoneNumber) = Some (user_lookup w' phoneNumber) ∧
     (name' = JUndefined → name r' = name r) ∧
     (about' = JUndefined → about r' = about r) ∧
     (file = None → profilePicture r' = profilePicture r) ∧
     (truthy name' = true → name r' = name') ∧
     (truthy about' = true → about r' = Some about') ∧
     (∀ path, file = Some path → profilePicture r' = Some path)) ∧
  (∀ key, key ≠ phoneNumber →
     own (userStore w') !! key = own (userStore w) !! key) ∧
  otpStore w' = otpStore w ∧
  get_profile (put_profile created "+1" JUndefined (JStr "hi") None).1 "+1"
  = mkResponse 200 true None
      (Some (OwnRec (mkProfile (JStr "A") None (Some (JStr "hi"))))).
Proof.
  intros Hcn Hca Hr w'.
  destruct (put_profile_record w phoneNumber name' about' file r Hr)
    as (Hr' & Hframe & Hotp).
  rewrite !body_field_clean in Hr' by done.
  fold w' in Hr', Hframe, Hotp.
  split; [|split; [done|split; [done|by vm_compute]]].
  exists (assign_fields name' about' file r).
  split; [done|]. split.
  { unfold get_profile. by rewrite (user_lookup_record_truthy _ _ _ Hr'). }
  unfold assign_fields.
  repeat split.
  - intros ->. simpl. by repeat case_match.
  - intros ->. simpl. by repeat case_match.
  - intros ->. by repeat case_match.
  - intros ->. by repeat case_match.
  - intros ->. by repeat case_match.
  - intros path ->. done.
Qed.


(** C10, the part that holds in every state: a name or an about text
    sent as the empty string leaves the record's field as it was, and
    after any update a field is the empty string only if it was so
    before.  While [Object.prototype] has no property of that name, the
    update with an empty field is the update without it. *)
Lemma empty_string_field_keeps_value
    (w : World) (phoneNumber : string) (name' about' : JsVal)
    (file : option string) (r : Profile) :
  record_of (user_lookup w phoneNumber) = Some r →
  (∃ r',
     record_of
       (user_lookup (put_profile w phoneNumber (JStr EmptyString) about' file).1
          phoneNumber) = Some r' ∧ name r' = name r) ∧
  (∃ r',
     record_of
       (user_lookup (put_profile w phoneNumber name' (JStr EmptyString) file).1
          phoneNumber) = Some r' ∧ about r' = about r) ∧
  (∃ r',
     record_of
       (user_lookup (put_profile w phoneNumber name' about' file).1 phoneNumber)
     = Some r' ∧
     (name r' = JStr EmptyString → name r = JStr EmptyString) ∧
     (about r' = Some (JStr EmptyString) → about r = Some (JStr EmptyString))) ∧
  (objectPrototype w !! "name" = None →
   put_profile w phoneNumber (JStr EmptyString) about' file
   = put_profile w phoneNumber JUndefined about' file) ∧
  (objectPrototype w !! "about" = None →
   put_profile w phoneNumber name' (JStr EmptyString) file
   = put_profile w phoneNumber name' JUndefined file).
Proof.
  intros Hr. repeat split.
  - destruct (put_profile_record w phoneNumber (JStr EmptyString) about' file
                r Hr) as (Hr' & _).
    eexists. split; [exact Hr'|].
    unfold assign_fields.
    replace (body_field w file "name" (JStr EmptyString))
      with (JStr EmptyString) by (by destruct file).
    simpl. by repeat case_match.
  - destruct (put_profile_record w phoneNumber name' (JStr EmptyString) file
                r Hr) as (Hr' & _).
    eexists. split; [exact Hr'|].
    unfold assign_fields.
    replace (body_field w file "about" (JStr EmptyString))
      with (JStr EmptyString) by (by destruct file).
    simpl. by repeat case_match.
  - destruct (put_profile_record w phoneNumber name' about' file r Hr)
      as (Hr' & _).
    eexists. split; [exact Hr'|].
    unfold assign_fields.
    destruct (truthy (body_field w file "name" name')) eqn:Hn,
      (truthy (body_field w file "about" about')) eqn:Ha, file; simpl;
      split; intros Heq; try done; try injection Heq as Heq;
      rewrite Heq in *; discriminate.
  - intros Hc. unfold put_profile, update_profile. rewrite !(body_field_clean w _ "name") by done.
    unfold assign_fields, assign_extras. done.
  - intros Hc. unfold put_profile, update_profile. rewrite !(body_field_clean w _ "about") by done.
    unfold assign_fields, assign_extras. simpl. by rewrite !andb_false_r.
Qed.

(** C7, for a phone number that names a function of [Object.prototype].
    No profile was ever created, yet the lookup is truthy and the update
    is answered with status 200 instead of 404. *)
Theorem update_of_inherited_key_succeeds
    (name' about' : JsVal) (file : option string) :
  own (userStore initial) !! "toString" = None ∧
  (put_profile initial "toString" name' about' file).2
  = mkResponse 200 true (Some "Profile updated successfully.")
      (Some (Builtin "toString")) ∧
  (put_profile initial "toString" name' about' file).2 ≠ UserNotFound.
Proof.
  assert ((put_profile initial "toString" name' about' file).2
          = mkResponse 200 true (Some "Profile updated successfully.")
              (Some (Builtin "toString"))) as Heq by reflexivity.
  rewrite Heq. repeat split; done.
Qed.

(** C7, first half, for every other phone number: an update for which no
    record exists is answered NotFound and changes nothing. *)
Lemma update_without_record
    (w : World) (phoneNumber : string) (name' about' : JsVal)
    (file : option string) :
  plain_key w phoneNumber →
  own (userStore w) !! phoneNumber = None →
  put_profile w phoneNumber name' about' file = (w, UserNotFound).
Proof.
  intros Hplain Hown. unfold put_profile, update_profile.
  assert (user_lookup w phoneNumber = Prim JUndefined) as ->; [|done].
  unfold user_lookup, store_get. rewrite Hown.
  rewrite (object_prototype_get_plain w) by done.
  destruct Hplain as (Hnp & _ & _ & Hnf).
  rewrite bool_decide_false by done.
  destruct (proto (userStore w)) as [r|]; [|done].
  unfold profile_fields.
  rewrite !bool_decide_false; [done|..]; intros Heq; apply Hnf; rewrite Heq;
    set_solver.
Qed.

(** C7, second half: with name and phone number present, creation is
    answered with success and the store then yields the new record for
    that phone number, whatever was there. *)
Lemma creation_is_upsert
    (w : World) (name' phoneNumber : JsVal) (file : option string) :
  reachable w →
  truthy name' = true → truthy phoneNumber = true →
  (post_profile w name' phoneNumber file).2
    = reply 200 true "Profile updated successfully." ∧
  record_of (user_lookup (post_profile w name' phoneNumber file).1
               (ToPropertyKey phoneNumber))
    = Some (mkProfile name' file None).
Proof.
  intros Hreach Hn HP. unfold post_profile.
  rewrite (body_field_truthy _ _ _ _ Hn), Hn, HP. simpl.
  split; [done|]. apply store_get_set.
  by destruct (reachable_wf _ Hreach) as (_ & ? & _).
Qed.

(** * Further properties of the handlers *)

(** ** What reaches [Object.prototype] *)

(** Membership in a list that is written out. *)
Ltac in_list := by repeat first [apply list_elem_of_here | apply list_elem_of_further].

Lemma assign_extras_lookup `{Countable K} (prop : string → K) writable
    name' about' file (props : gmap K JsVal) k v :
  assign_extras prop writable name' about' file props !! k = Some v →
  props !! k = Some v ∨
  (k = prop "name" ∧ writable = true) ∨ k = prop "about" ∨
  k = prop "profilePicture".
Proof.
  unfold assign_extras. intros Hk.
  repeat case_match;
    repeat (rewrite lookup_insert in Hk; case_decide; subst);
    auto;
    match goal with
    | Hw : _ && _ = true |- _ => apply andb_true_iff in Hw as [_ ->]; auto
    end.
Qed.

Lemma pollution_bounded_handle w req :
  pollution_bounded w → pollution_bounded (handle w req).1.
Proof.
  intros [Hop Hfn]. destruct req as [now x sms P|now P v|n P file|P n a file|P];
    simpl; try done.
  - unfold send_otp. destruct (negb (truthy P)); [done|]. by destruct sms.
  - unfold verify_otp. by repeat case_match.
  - unfold post_profile. by case_match.
  - unfold put_profile, update_profile. case_match; [done|]. simpl.
    destruct (user_lookup w P) as [r|r|v| |f] eqn:Hl; try done.
    + split; [|done]. simpl. intros key v Hk.
      apply assign_extras_lookup in Hk as [Hk|[[-> _]|[->| ->]]];
        [by eapply Hop | unfold profile_names; in_list..].
    + split; [done|]. simpl. intros g p v Hk.
      assert (f ∈ builtin_functions) as Hf.
      { unfold user_lookup, store_get, object_prototype_get in Hl.
        repeat case_match; simplify_eq.
        all: by match goal with
                | Hb : bool_decide _ = true |- _ => apply bool_decide_eq_true in Hb
                end. }
      apply assign_extras_lookup in Hk as [Hk|[[_ [=]]|[[= -> ->]|[= -> ->]]]];
        [by eapply Hfn | split; [done | in_list]..].
Qed.

Lemma reachable_pollution_bounded w : reachable w → pollution_bounded w.
Proof.
  induction 1 as [|w req _ IH]; [|by apply pollution_bounded_handle].
  split; simpl; intros *; by rewrite lookup_empty.
Qed.

Lemma reserved_names_cover key :
  key = proto_key ∨ key ∈ builtin_functions ∨
  key ∈ ["otp"; "expiry"; "name"; "about"; "profilePicture"] →
  key ∈ reserved_names.
Proof.
  unfold reserved_names. intros [?|[?|?]].
  - subst. apply list_elem_of_here.
  - apply list_elem_of_further, elem_of_app. auto.
  - apply list_elem_of_further, elem_of_app. auto.
Qed.

(** Membership in a list that is written out is settled by evaluation. *)
Lemma not_in_by_evaluation (key : string) (names : list string) :
  bool_decide (key ∈ names) = false → key ∉ names.
Proof. apply bool_decide_eq_false_1. Qed.

Lemma in_by_evaluation (key : string) (names : list string) :
  bool_decide (key ∈ names) = true → key ∈ names.
Proof. apply bool_decide_eq_true_1. Qed.

(** Outside the reserved names a key reaches nothing along the chain. *)
Lemma unreserved_plain_key w key :
  reachable w → key ∉ reserved_names → plain_key w key.
Proof.
  intros [Hop _]%reachable_pollution_bounded Hkey.
  repeat split.
  - intros ->. apply Hkey, reserved_names_cover. auto.
  - intros Hb. apply Hkey, reserved_names_cover. auto.
  - destruct (objectPrototype w !! key) eqn:Hk; [|done].
    apply Hop in Hk. destruct Hkey. apply reserved_names_cover.
    right; right. by do 2 apply list_elem_of_further.
  - intros Hf. apply Hkey, reserved_names_cover. auto.
Qed.

(** X1. Whatever requests are served, [Object.prototype] gains no
    property other than [name], [about] and [profilePicture], and its
    functions none other than [about] and [profilePicture]. *)
Theorem pollution_stays_within_profile_fields (w : World) :
  reachable w →
  (∀ key v, objectPrototype w !! key = Some v → key ∈ profile_names) ∧
  (∀ f p v, builtins w !! (f, p) = Some v →
     f ∈ builtin_functions ∧ p ∈ ["about"; "profilePicture"]).
Proof.
  intros Hreach. fold (pollution_bounded w).
  induction Hreach as [|w req _ IH]; [|by apply pollution_bounded_handle].
  split; simpl; intros *; by rewrite lookup_empty.
Qed.

Lemma pollution_stays_within_profile_fields_witness :
  (∀ key v,
     objectPrototype
       (put_profile initial "__proto__" (JStr "x") (JStr "y") None).1 !! key
     = Some v → key ∈ profile_names) ∧
  (∀ f p v,
     builtins
       (put_profile initial "__proto__" (JStr "x") (JStr "y") None).1 !! (f, p)
     = Some v → f ∈ builtin_functions ∧ p ∈ ["about"; "profilePicture"]).
Proof.
  apply (pollution_stays_within_profile_fields
           (put_profile initial "__proto__" (JStr "x") (JStr "y") None).1).
  apply (reach_handle initial
           (PutProfile "__proto__" (JStr "x") (JStr "y") None)).
  apply reach_initial.
Defined.

(** ** The OTP handlers outside the reserved names *)

(** X2. For a phone number outside the reserved names, issuing a code
    and verifying with it before expiry succeeds and removes the record,
    and the same code submitted again, at any time, is answered
    NotFound. *)
Theorem unreserved_code_is_single_use
    (w : World) (now x : Z) (sms : SmsResult) (phoneNumber : JsVal) (t t' : Z) :
  reachable w →
  truthy phoneNumber = true →
  ToPropertyKey phoneNumber ∉ reserved_names →
  t ≤ now + TTL →
  let code := JStr (generate_otp x) in
  let w1 := (send_otp w now x sms phoneNumber).1 in
  let w2 := (verify_otp w1 t phoneNumber code).1 in
  (verify_otp w1 t phoneNumber code).2 = Verified ∧
  own (otpStore w2) !! ToPropertyKey phoneNumber = None ∧
  verify_otp w2 t' phoneNumber code = (w2, NotFound).
Proof.
  intros Hreach HP Hkey Ht.
  apply plain_key_code_is_single_use; auto using unreserved_plain_key.
Qed.

Lemma unreserved_code_is_single_use_witness :
  (verify_otp issued 2000 (JStr "+15551234") (JStr (generate_otp 23456))).2
    = Verified ∧
  own (otpStore
         (verify_otp issued 2000 (JStr "+15551234")
            (JStr (generate_otp 23456))).1) !! "+15551234" = None ∧
  verify_otp
    (verify_otp issued 2000 (JStr "+15551234") (JStr (generate_otp 23456))).1
    2001 (JStr "+15551234") (JStr (generate_otp 23456))
  = ((verify_otp issued 2000 (JStr "+15551234")
        (JStr (generate_otp 23456))).1, NotFound).
Proof.
  apply (unreserved_code_is_single_use initial 1000 23456 (SmsSent "SM1")
           (JStr "+15551234") 2000 2001).
  - apply reach_initial.
  - reflexivity.
  - apply not_in_by_evaluation. vm_compute; reflexivity.
  - vm_compute; discriminate.
Defined.

(** The lookup of a key that reaches nothing and is not an own property. *)
Lemma otp_lookup_plain_absent w key :
  plain_key w key → own (otpStore w) !! key = None →
  otp_lookup w key = Prim JUndefined.
Proof.
  intros Hplain Hown. unfold otp_lookup, store_get. rewrite Hown.
  rewrite (object_prototype_get_plain w) by done.
  destruct Hplain as (Hnp & _ & _ & Hnf).
  rewrite bool_decide_false by done.
  destruct (proto (otpStore w)) as [r|]; [|done].
  unfold otp_fields.
  rewrite !bool_decide_false; [done|..]; intros Heq; apply Hnf; rewrite Heq;
    in_list.
Qed.

(** X3. A verification for a phone number outside the reserved names
    that has no record (never issued, or already consumed) is answered
    NotFound, whatever is submitted, and changes nothing. *)
Theorem verification_without_record_is_not_found
    (w : World) (now : Z) (phoneNumber otp_in : JsVal) :
  reachable w →
  truthy phoneNumber = true →
  truthy otp_in = true →
  ToPropertyKey phoneNumber ∉ reserved_names →
  own (otpStore w) !! ToPropertyKey phoneNumber = None →
  verify_otp w now phoneNumber otp_in = (w, NotFound).
Proof.
  intros Hreach HP Hv Hkey Hown. unfold verify_otp. rewrite HP, Hv. simpl.
  by rewrite otp_lookup_plain_absent by auto using unreserved_plain_key.
Qed.

Lemma verification_without_record_is_not_found_witness :
  verify_otp initial 1000 (JStr "+15551234") (JStr "123456")
  = (initial, NotFound).
Proof.
  apply (verification_without_record_is_not_found initial 1000
           (JStr "+15551234") (JStr "123456")).
  - apply reach_initial.
  - reflexivity.
  - reflexivity.
  - apply not_in_by_evaluation. vm_compute; reflexivity.
  - vm_compute; reflexivity.
Defined.

(** X4. A code issued at clock [now] is accepted at clock [t] exactly
    when [t <= now + TTL]: the window is closed at its upper end and has
    no lower end. *)
Theorem code_accepted_exactly_until_expiry
    (w : World) (now x : Z) (sms : SmsResult) (phoneNumber : JsVal) (t : Z) :
  reachable w →
  truthy phoneNumber = true →
  (verify_otp (send_otp w now x sms phoneNumber).1 t phoneNumber
     (JStr (generate_otp x))).2 = Verified
  ↔ t ≤ now + TTL.
Proof.
  intros Hreach HP.
  pose proof (otp_lookup_send_otp w now x sms phoneNumber
                (reachable_wf _ Hreach) HP) as Hr.
  rewrite (verify_otp_record _ t _ _ _ HP (generate_otp_truthy x) Hr). simpl.
  destruct (Z.gtb_spec t (now + TTL)); split; try done; try lia.
  intros _. by same_code.
Qed.

Lemma code_accepted_exactly_until_expiry_witness :
  (verify_otp issued 301000 (JStr "+15551234") (JStr (generate_otp 23456))).2
    = Verified
  ↔ 301000 ≤ 1000 + TTL.
Proof.
  apply (code_accepted_exactly_until_expiry initial 1000 23456 (SmsSent "SM1")
           (JStr "+15551234") 301000).
  - apply reach_initial.
  - reflexivity.
Defined.

Lemma wrong_guess_fails w now phoneNumber otp_in r :
  record_of (otp_lookup w (ToPropertyKey phoneNumber)) = Some r →
  otp_in ≠ JStr (otp r) →
  success (verify_otp w now phoneNumber otp_in).2 = false.
Proof.
  intros Hr Hne. unfold verify_otp.
  rewrite (otp_lookup_record_truthy _ _ _ Hr), Hr.
  destruct (negb (truthy phoneNumber) || negb (truthy otp_in)); [done|].
  simpl. destruct (Z.gtb now (expiry r)); [done|].
  by other_code.
Qed.

(** X5. Wrong guesses cost nothing: any number of verification requests
    for a phone number with a stored record, none of them submitting the
    stored code, are all answered with failure and leave the state as it
    was, so the stored code still verifies afterwards until it expires. *)
Theorem wrong_guesses_are_unlimited
    (w : World) (phoneNumber : JsVal) (r : OtpRecord)
    (guesses : list (Z * JsVal)) :
  reachable w →
  truthy phoneNumber = true →
  record_of (otp_lookup w (ToPropertyKey phoneNumber)) = Some r →
  Forall (λ g, g.2 ≠ JStr (otp r)) guesses →
  (run w (guess_requests phoneNumber guesses)).1 = w ∧
  Forall (λ res, success res = false)
    (run w (guess_requests phoneNumber guesses)).2 ∧
  List.length (run w (guess_requests phoneNumber guesses)).2
  = List.length guesses ∧
  ∀ t, t ≤ expiry r →
    (verify_otp (run w (guess_requests phoneNumber guesses)).1 t phoneNumber
       (JStr (otp r))).2 = Verified.
Proof.
  intros Hreach HP Hr Hwrong.
  assert ((run w (guess_requests phoneNumber guesses)).1 = w ∧
          Forall (λ res, success res = false)
            (run w (guess_requests phoneNumber guesses)).2 ∧
          List.length (run w (guess_requests phoneNumber guesses)).2
          = List.length guesses) as (Hsame & Hfail & Hlen).
  { induction Hwrong as [|[now g] guesses Hg _ IH]; [by repeat constructor|].
    simpl in *.
    pose proof (wrong_guess_fails w now phoneNumber g r Hr Hg) as Hf.
    rewrite (verify_otp_failure_frame _ _ _ _ Hf).
    destruct IH as (IH1 & IH2 & IH3).
    split; [done|]. split; [by constructor | by rewrite IH3]. }
  rewrite Hsame. repeat split; try done.
  intros t Ht.
  destruct (reachable_wf _ Hreach) as (_ & _ & Hcodes).
  destruct (Hcodes r (record_of_holds _ _ _ _ _ Hr)) as [x Hx].
  rewrite (verify_otp_record _ t _ _ r HP)
    by (by rewrite ?Hx, ?generate_otp_truthy).
  rewrite gtb_within by done. by same_code.
Qed.

Lemma wrong_guesses_are_unlimited_witness :
  (run issued
     (guess_requests (JStr "+15551234")
        [(2000, JStr "000000"); (2001, JNum 123456); (2002, JStr "123457")])).1
  = issued ∧
  (verify_otp
     (run issued
        (guess_requests (JStr "+15551234")
           [(2000, JStr "000000"); (2001, JNum 123456); (2002, JStr "123457")])).1
     3000 (JStr "+15551234") (JStr "123456")).2 = Verified.
Proof.
  destruct (wrong_guesses_are_unlimited issued (JStr "+15551234")
              (mkOtp "123456" 301000)
              [(2000, JStr "000000"); (2001, JNum 123456); (2002, JStr "123457")])
    as (Hsame & _ & _ & Hstill).
  - apply reachable_issued.
  - reflexivity.
  - vm_compute; reflexivity.
  - repeat constructor; simpl; discriminate.
  - split; [exact Hsame|]. apply Hstill. simpl; lia.
Defined.

(** ** Frames *)

(** X6. Issuing a code for one phone number (other than ["__proto__"])
    leaves the lookup of every other phone number as it was, and every
    profile lookup too. *)
Theorem issuance_keeps_other_numbers
    (w : World) (now x : Z) (sms : SmsResult) (phoneNumber : JsVal)
    (key : string) :
  ToPropertyKey phoneNumber ≠ proto_key →
  key ≠ ToPropertyKey phoneNumber →
  otp_lookup (send_otp w now x sms phoneNumber).1 key = otp_lookup w key ∧
  ∀ k, user_lookup (send_otp w now x sms phoneNumber).1 k = user_lookup w k.
Proof.
  intros Hnp Hne. unfold send_otp.
  destruct (negb (truthy phoneNumber)); [done|].
  assert (otp_lookup
            (with_otpStore w
               (store_set (otpStore w) (ToPropertyKey phoneNumber)
                  (mkOtp (generate_otp x) (now + TTL)))) key
          = otp_lookup w key) as Hsame.
  { unfold otp_lookup, store_get, store_set.
    rewrite (bool_decide_false (_ = proto_key)) by done. simpl.
    by rewrite lookup_insert_ne. }
  by destruct sms.
Qed.

Lemma issuance_keeps_other_numbers_witness :
  otp_lookup (send_otp issued 5000 77 (SmsSent "SM2") (JStr "+15550000")).1
    "+15551234"
  = otp_lookup issued "+15551234" ∧
  ∀ k, user_lookup
         (send_otp issued 5000 77 (SmsSent "SM2") (JStr "+15550000")).1 k
       = user_lookup issued k.
Proof.
  apply (issuance_keeps_other_numbers issued 5000 77 (SmsSent "SM2")
           (JStr "+15550000") "+15551234").
  - vm_compute; discriminate.
  - vm_compute; discriminate.
Defined.

(** X7. A verification for one phone number, successful or not, leaves
    the lookup of every other phone number as it was, and every profile
    lookup too. *)
Theorem verification_keeps_other_numbers
    (w : World) (now : Z) (phoneNumber otp_in : JsVal) (key : string) :
  key ≠ ToPropertyKey phoneNumber →
  otp_lookup (verify_otp w now phoneNumber otp_in).1 key = otp_lookup w key ∧
  ∀ k, user_lookup (verify_otp w now phoneNumber otp_in).1 k = user_lookup w k.
Proof.
  intros Hne. unfold verify_otp. repeat case_match; simpl; try done.
  split; [|done]. unfold otp_lookup, store_get, store_delete. simpl.
  by rewrite lookup_delete_ne.
Qed.

Lemma verification_keeps_other_numbers_witness :
  otp_lookup
    (verify_otp issued 2000 (JStr "+15551234") (JStr "123456")).1 "+15550000"
  = otp_lookup issued "+15550000" ∧
  ∀ k, user_lookup
         (verify_otp issued 2000 (JStr "+15551234") (JStr "123456")).1 k
       = user_lookup issued k.
Proof.
  apply (verification_keeps_other_numbers issued 2000 (JStr "+15551234")
           (JStr "123456") "+15550000").
  vm_compute; discriminate.
Defined.

(** X8. A request answered with [success: false] has changed nothing,
    unless it is a send-otp request whose delivery failed. *)
Theorem failure_changes_nothing (w : World) (req : Request) :
  failed_delivery req = false →
  success (handle w req).2 = false →
  (handle w req).1 = w.
Proof.
  destruct req as [now x sms P|now P v|n P file|P n a file|P]; simpl.
  - intros Hd. unfold send_otp. destruct (negb (truthy P)); [done|].
    by destruct sms.
  - intros _. apply verify_otp_failure_frame.
  - intros _. unfold post_profile. by case_match.
  - intros _. unfold put_profile, update_profile. by case_match.
  - done.
Qed.

Lemma failure_changes_nothing_witness :
  (handle issued (PutProfile "+15551234" (JStr "A") JUndefined None)).1
  = issued.
Proof.
  apply (failure_changes_nothing issued
           (PutProfile "+15551234" (JStr "A") JUndefined None)).
  - reflexivity.
  - vm_compute; reflexivity.
Defined.

(** ** Invariants of the stored records *)

(** X9. In every state the server reaches, every OTP record a lookup can
    return holds a code of exactly six decimal digits. *)
Theorem stored_codes_are_six_digits (w : World) (key : string) (r : OtpRecord) :
  reachable w →
  record_of (otp_lookup w key) = Some r →
  String.length (otp r) = 6%nat ∧ all_digits (otp r) = true.
Proof.
  intros Hreach Hr.
  destruct (reachable_wf _ Hreach) as (_ & _ & Hcodes).
  destruct (Hcodes r (record_of_holds _ _ _ _ _ Hr)) as [x ->].
  apply generate_otp_six_digits.
Qed.

Lemma stored_codes_are_six_digits_witness :
  String.length (otp (mkOtp "123456" 301000)) = 6%nat ∧
  all_digits (otp (mkOtp "123456" 301000)) = true.
Proof.
  apply (stored_codes_are_six_digits issued "+15551234" (mkOtp "123456" 301000)).
  - apply reachable_issued.
  - vm_compute; reflexivity.
Defined.

Lemma assign_fields_ok name' about' file r :
  profile_ok r → profile_ok (assign_fields name' about' file r).
Proof.
  intros [Hn Ha]. unfold assign_fields, profile_ok.
  destruct (truthy name') eqn:Hn', (truthy about') eqn:Ha', file; simpl;
    split; try done; intros a [= <-]; done.
Qed.

Lemma profiles_ok_handle w req :
  (∀ r, holds (userStore w) r → profile_ok r) →
  ∀ r, holds (userStore (handle w req).1) r → profile_ok r.
Proof.
  intros Hok.
  destruct req as [now x sms P|now P v|n P file|P n a file|P]; simpl; try done.
  - unfold send_otp. destruct (negb (truthy P)); [done|]. by destruct sms.
  - unfold verify_otp. by repeat case_match.
  - unfold post_profile.
    destruct (truthy (body_field w file "name" n)) eqn:Hn; [|done].
    destruct (truthy P); [|done]. simpl.
    intros r [->|Hr]%holds_store_set; [|auto]. by split.
  - unfold put_profile, update_profile. case_match; [done|].
    destruct (user_lookup w P) as [r0|r0|v| |f] eqn:Hl; simpl; try done.
    + assert (holds (userStore w) r0) as Hr0.
      { eapply record_of_holds. unfold user_lookup in Hl. by rewrite Hl. }
      intros r [[k Hk]|Hp]; simpl in *.
      * destruct (decide (P = k)) as [->|Hne].
        -- rewrite lookup_insert_eq in Hk. injection Hk as <-.
           by apply assign_fields_ok, Hok.
        -- rewrite lookup_insert_ne in Hk by done. apply Hok. left. eauto.
      * apply Hok. by right.
    + assert (holds (userStore w) r0) as Hr0.
      { eapply record_of_holds. unfold user_lookup in Hl. by rewrite Hl. }
      intros r [[k Hk]|Hp]; simpl in *.
      * apply Hok. left. eauto.
      * injection Hp as <-. by apply assign_fields_ok, Hok.
Qed.

(** X10. In every state the server reaches, every profile record a
    lookup can return has a truthy name and, when it has an about text,
    a truthy one: no request stores an empty name or an empty about. *)
Theorem stored_profiles_have_a_name (w : World) (key : string) (r : Profile) :
  reachable w →
  record_of (user_lookup w key) = Some r →
  truthy (name r) = true ∧ ∀ a, about r = Some a → truthy a = true.
Proof.
  intros Hreach Hr.
  assert (∀ r, holds (userStore w) r → profile_ok r) as Hok.
  { clear Hr. induction Hreach as [|w req _ IH]; [|by apply profiles_ok_handle].
    intros r0 [[k Hk]|Hp]; simpl in *; [by rewrite lookup_empty in Hk | done]. }
  apply Hok. by eapply record_of_holds.
Qed.

Lemma stored_profiles_have_a_name_witness :
  truthy (name (mkProfile (JStr "A") None None)) = true ∧
  ∀ a, about (mkProfile (JStr "A") None None) = Some a → truthy a = true.
Proof.
  apply (stored_profiles_have_a_name created "+1" (mkProfile (JStr "A") None None)).
  - apply (reach_handle initial (PostProfile (JStr "A") (JStr "+1") None)).
    apply reach_initial.
  - vm_compute; reflexivity.
Defined.

(** ** The two stores side by side *)

Lemma assign_extras_other `{Countable K} (prop : string → K) writable
    name' about' file (props : gmap K JsVal) k :
  k ≠ prop "name" → k ≠ prop "about" → k ≠ prop "profilePicture" →
  assign_extras prop writable name' about' file props !! k = props !! k.
Proof.
  intros Hn Ha Hp. unfold assign_extras.
  repeat case_match; by rewrite ?lookup_insert_ne by done.
Qed.

(** X11. A profile request (create, update or fetch) leaves the OTP
    lookup of every key unchanged, except possibly under the three
    profile field names, which an update addressed to ["__proto__"]
    puts on [Object.prototype]. *)
Theorem profile_requests_keep_otp_lookups
    (w : World) (req : Request) (key : string) :
  otp_request req = false →
  key ∉ profile_names →
  otp_lookup (handle w req).1 key = otp_lookup w key.
Proof.
  intros Hreq Hkey.
  destruct req as [now x sms P|now P v|n P file|P n a file|P]; simpl;
    try done.
  - unfold post_profile. by case_match.
  - unfold put_profile, update_profile. case_match; [done|].
    destruct (user_lookup w P) as [r0|r0|v| |f]; simpl; try done.
    unfold otp_lookup, store_get, object_prototype_get. simpl.
    rewrite assign_extras_other; [done|..];
      intros ->; apply Hkey; unfold profile_names; in_list.
Qed.

Lemma profile_requests_keep_otp_lookups_witness :
  otp_lookup
    (handle issued (PutProfile "__proto__" (JStr "x") (JStr "y") None)).1
    "+15551234"
  = otp_lookup issued "+15551234".
Proof.
  apply (profile_requests_keep_otp_lookups issued
           (PutProfile "__proto__" (JStr "x") (JStr "y") None) "+15551234").
  - reflexivity.
  - apply not_in_by_evaluation. vm_compute; reflexivity.
Defined.

(** ** The profile handlers *)

Lemma user_lookup_plain_absent w key :
  plain_key w key → own (userStore w) !! key = None →
  user_lookup w key = Prim JUndefined.
Proof.
  intros Hplain Hown. unfold user_lookup, store_get. rewrite Hown.
  rewrite (object_prototype_get_plain w) by done.
  destruct Hplain as (Hnp & _ & _ & Hnf).
  rewrite bool_decide_false by done.
  destruct (proto (userStore w)) as [r|]; [|done].
  unfold profile_fields.
  rewrite !bool_decide_false; [done|..]; intros Heq; apply Hnf; rewrite Heq;
    in_list.
Qed.

(** X12. For a phone number outside the reserved names that has no
    profile record, both the update and the fetch are answered 404
    ['User not found.'], and the update changes nothing. *)
Theorem no_record_is_user_not_found
    (w : World) (phoneNumber : string) (name' about' : JsVal)
    (file : option string) :
  reachable w →
  phoneNumber ∉ reserved_names →
  own (userStore w) !! phoneNumber = None →
  put_profile w phoneNumber name' about' file = (w, UserNotFound) ∧
  get_profile w phoneNumber = UserNotFound ∧
  status UserNotFound = 404.
Proof.
  intros Hreach Hkey Hown.
  pose proof (user_lookup_plain_absent w phoneNumber
                (unreserved_plain_key _ _ Hreach Hkey) Hown) as Hl.
  unfold put_profile, update_profile, get_profile. by rewrite Hl.
Qed.

Lemma no_record_is_user_not_found_witness :
  put_profile created "+2" (JStr "B") JUndefined None = (created, UserNotFound) ∧
  get_profile created "+2" = UserNotFound ∧
  status UserNotFound = 404.
Proof.
  apply (no_record_is_user_not_found created "+2" (JStr "B") JUndefined None).
  - apply (reach_handle initial (PostProfile (JStr "A") (JStr "+1") None)).
    apply reach_initial.
  - apply not_in_by_evaluation. vm_compute; reflexivity.
  - vm_compute; reflexivity.
Defined.

(** X13. Creating a profile and fetching it returns a record with the
    given name, the uploaded picture path or [null], and no about text,
    whatever record the phone number had before: creation replaces the
    whole record, a previous about text included. *)
Theorem create_then_fetch
    (w : World) (name' phoneNumber : JsVal) (file : option string) :
  reachable w →
  truthy name' = true →
  truthy phoneNumber = true →
  let w' := (post_profile w name' phoneNumber file).1 in
  ∃ ref,
    get_profile w' (ToPropertyKey phoneNumber)
    = mkResponse 200 true None (Some ref) ∧
    record_of ref = Some (mkProfile name' file None).
Proof.
  intros Hreach Hn HP w'.
  destruct (creation_is_upsert w name' phoneNumber file Hreach Hn HP)
    as [_ Hr]. fold w' in Hr.
  exists (user_lookup w' (ToPropertyKey phoneNumber)). split; [|done].
  unfold get_profile. by rewrite (user_lookup_record_truthy _ _ _ Hr).
Qed.

Lemma create_then_fetch_witness :
  ∃ ref,
    get_profile
      (post_profile
         (put_profile created "+1" JUndefined (JStr "hi") (Some "uploads/1-.png")).1
         (JStr "B") (JStr "+1") None).1 "+1"
    = mkResponse 200 true None (Some ref) ∧
    record_of ref = Some (mkProfile (JStr "B") None None).
Proof.
  apply (create_then_fetch
           (put_profile created "+1" JUndefined (JStr "hi")
              (Some "uploads/1-.png")).1
           (JStr "B") (JStr "+1") None).
  - apply (reach_handle created
             (PutProfile "+1" JUndefined (JStr "hi") (Some "uploads/1-.png"))).
    apply (reach_handle initial (PostProfile (JStr "A") (JStr "+1") None)).
    apply reach_initial.
  - reflexivity.
  - reflexivity.
Defined.

Lemma assign_fields_again name' about' file1 file2 r :
  (file2 = None → file1 = None) →
  assign_fields name' about' file2 (assign_fields name' about' file1 r)
  = assign_fields name' about' file2 r.
Proof.
  intros Hf. unfold assign_fields.
  destruct (truthy name'), (truthy about'), file1, file2; try done;
    by specialize (Hf eq_refl).
Qed.

Lemma assign_extras_again `{Countable K} (prop : string → K) writable
    name' about' file1 file2 (props : gmap K JsVal) :
  (file2 = None → file1 = None) →
  assign_extras prop writable name' about' file2
    (assign_extras prop writable name' about' file1 props)
  = assign_extras prop writable name' about' file2 props.
Proof.
  intros Hf. unfold assign_extras. apply map_eq. intros k.
  destruct file1, file2; try by specialize (Hf eq_refl).
  all: repeat case_match; rewrite ?lookup_insert; repeat case_decide; done.
Qed.

(** What the update's own lookup sees once the update is done. *)
Lemma user_lookup_update_profile w phoneNumber name' about' file :
  user_lookup (update_profile w phoneNumber name' about' file).1 phoneNumber
  = match user_lookup w phoneNumber with
    | OwnRec r => OwnRec (assign_fields name' about' file r)
    | ProtoRec r => ProtoRec (assign_fields name' about' file r)
    | other => other
    end.
Proof.
  unfold update_profile.
  destruct (user_lookup w phoneNumber) as [r|r|v| |f] eqn:Hl; simpl.
  - unfold user_lookup, store_get. simpl. by rewrite lookup_insert_eq.
  - unfold user_lookup, store_get, object_prototype_get in *. simpl.
    destruct (own (userStore w) !! phoneNumber); [done|].
    case_bool_decide; [done|]. repeat case_match; done.
  - by destruct (negb (truthy v)).
  - unfold user_lookup, store_get, object_prototype_get in *. simpl.
    destruct (own (userStore w) !! phoneNumber); [done|].
    case_bool_decide; [|repeat case_match; done].
    by destruct (proto (userStore w)).
  - exact Hl.
Qed.

Lemma user_lookup_put_profile w phoneNumber name' about' file :
  user_lookup (put_profile w phoneNumber name' about' file).1 phoneNumber
  = match user_lookup w phoneNumber with
    | OwnRec r =>
        OwnRec (assign_fields (body_field w file "name" name')
                  (body_field w file "about" about') file r)
    | ProtoRec r =>
        ProtoRec (assign_fields (body_field w file "name" name')
                    (body_field w file "about" about') file r)
    | other => other
    end.
Proof. apply user_lookup_update_profile. Qed.

(** Assigning the same values a second time. *)
Lemma update_profile_again w phoneNumber name' about' file1 file2 :
  (file2 = None → file1 = None) →
  update_profile (update_profile w phoneNumber name' about' file1).1
    phoneNumber name' about' file2
  = update_profile w phoneNumber name' about' file2.
Proof.
  intros Hf.
  pose proof (user_lookup_update_profile w phoneNumber name' about' file1)
    as Hl'.
  unfold update_profile at 1. rewrite Hl'. clear Hl'.
  unfold update_profile.
  destruct (user_lookup w phoneNumber) as [r|r|v| |f] eqn:Hl; simpl.
  - rewrite assign_fields_again by done. unfold with_userStore. simpl.
    rewrite insert_insert_eq.
    unfold user_lookup, store_get. simpl. by rewrite !lookup_insert_eq.
  - rewrite assign_fields_again by done. unfold with_userStore. simpl.
    unfold user_lookup, store_get in *. simpl.
    destruct (own (userStore w) !! phoneNumber); [done|].
    case_bool_decide; [done|].
    unfold object_prototype_get in Hl. repeat case_match; done.
  - destruct (negb (truthy v)) eqn:Hv; simpl; by rewrite ?Hl, ?Hv.
  - rewrite assign_extras_again by done.
    unfold user_lookup, store_get, object_prototype_get in *. simpl.
    destruct (own (userStore w) !! phoneNumber); [done|].
    case_bool_decide; [|repeat case_match; done].
    by destruct (proto (userStore w)).
  - rewrite assign_extras_again by done.
    assert (∀ b, user_lookup
              (mkWorld (otpStore w) (userStore w) (objectPrototype w) b)
              phoneNumber = Builtin f) as Hb by (intros; exact Hl).
    by rewrite !Hb.
Qed.

(** What an update leaves on [Object.prototype]. *)
Lemma objectPrototype_update_profile w phoneNumber name' about' file :
  objectPrototype (update_profile w phoneNumber name' about' file).1
  = objectPrototype w ∨
  objectPrototype (update_profile w phoneNumber name' about' file).1
  = assign_extras id true name' about' file (objectPrototype w).
Proof.
  unfold update_profile. case_match; [by left|].
  destruct (user_lookup w phoneNumber); simpl; auto.
Qed.

(** An update without a picture reads the same name and about when it is
    served again: what it has put on [Object.prototype] is what it read
    there. *)
Lemma body_field_after_put w phoneNumber name' about' :
  body_field (put_profile w phoneNumber name' about' None).1 None "name" name'
  = body_field w None "name" name' ∧
  body_field (put_profile w phoneNumber name' about' None).1 None "about" about'
  = body_field w None "about" about'.
Proof.
  unfold put_profile.
  set (n := body_field w None "name" name').
  set (a := body_field w None "about" about').
  assert (∀ field, field = "name" ∨ field = "about" →
            body_field w None field JUndefined
            = (if bool_decide (field = "name") then n else a) →
            objectPrototype (update_profile w phoneNumber n a None).1 !! field
            = objectPrototype w !! field) as Hsame.
  { intros field Hfield Hread.
    destruct (objectPrototype_update_profile w phoneNumber n a None)
      as [->| ->]; [done|].
    unfold assign_extras, body_field in Hread |- *. rewrite andb_true_r.
    clearbody n a. unfold id.
    destruct Hfield as [-> | ->]; simpl in Hread;
      destruct (truthy a) eqn:Ha, (truthy n) eqn:Hn;
      rewrite ?lookup_insert_ne by done; rewrite ?lookup_insert_eq;
      try done;
      destruct (objectPrototype w !! _); simpl in Hread; subst; done. }
  split.
  - destruct name'; try done. unfold body_field at 1.
    by rewrite (Hsame "name") by auto.
  - destruct about'; try done. unfold body_field at 1.
    by rewrite (Hsame "about") by auto.
Qed.

(** A request that carries a file reads its fields as sent. *)
Lemma body_field_upload w path field v :
  body_field w (Some path) field v = v.
Proof. by destruct v. Qed.

(** X14. Serving the same update request a second time.  Without a
    picture, the second serving yields the state and the reply of the
    first.  With a picture, whose stored path is made anew at each
    serving, it yields the state and the reply of one serving with the
    second path. *)
Theorem update_is_idempotent
    (w : World) (phoneNumber : string) (name' about' : JsVal) :
  put_profile (put_profile w phoneNumber name' about' None).1
    phoneNumber name' about' None
  = put_profile w phoneNumber name' about' None ∧
  ∀ path1 path2,
    put_profile (put_profile w phoneNumber name' about' (Some path1)).1
      phoneNumber name' about' (Some path2)
    = put_profile w phoneNumber name' about' (Some path2).
Proof.
  split.
  - destruct (body_field_after_put w phoneNumber name' about') as [Hn Ha].
    unfold put_profile at 1. rewrite Hn, Ha.
    unfold put_profile. by apply update_profile_again.
  - intros path1 path2. unfold put_profile.
    rewrite !body_field_upload. by apply update_profile_again.
Qed.

(** X15. The record a successful update returns is the record a fetch
    for the same phone number returns right after it. *)
Theorem update_reply_matches_fetch
    (w : World) (phoneNumber : string) (name' about' : JsVal)
    (file : option string) :
  success (put_profile w phoneNumber name' about' file).2 = true →
  status (get_profile (put_profile w phoneNumber name' about' file).1
            phoneNumber) = 200 ∧
  user (get_profile (put_profile w phoneNumber name' about' file).1 phoneNumber)
  = user (put_profile w phoneNumber name' about' file).2.
Proof.
  intros Hok.
  pose proof (user_lookup_put_profile w phoneNumber name' about' file) as Hl'.
  unfold get_profile. rewrite Hl'.
  unfold put_profile, update_profile in *.
  destruct (negb (ref_truthy (user_lookup w phoneNumber))) eqn:Ht;
    [discriminate Hok|].
  simpl. simpl in Hl'. rewrite Hl'.
  destruct (user_lookup w phoneNumber) as [r|r|v| |f]; simpl in *; try done.
  apply negb_false_iff in Ht. by rewrite Ht.
Qed.

Lemma update_reply_matches_fetch_witness :
  status (get_profile (put_profile created "+1" JUndefined (JStr "hi") None).1
            "+1") = 200 ∧
  user (get_profile (put_profile created "+1" JUndefined (JStr "hi") None).1 "+1")
  = user (put_profile created "+1" JUndefined (JStr "hi") None).2.
Proof.
  apply (update_reply_matches_fetch created "+1" JUndefined (JStr "hi") None).
  vm_compute; reflexivity.
Defined.

(** ** Inherited function names *)

Lemma builtin_function_facts key :
  key ∈ builtin_functions →
  key ≠ proto_key ∧ (key ∉ profile_names) ∧ key ≠ "otp" ∧ key ≠ "expiry" ∧
  truthy (JStr key) = true.
Proof.
  unfold builtin_functions. intros Hk.
  repeat (apply elem_of_cons in Hk as [->|Hk]);
    [..|by apply elem_of_nil in Hk];
    (repeat split; [discriminate | | discriminate | discriminate]);
    apply not_in_by_evaluation; reflexivity.
Qed.

Lemma inherited_function_lookup {A} (fields : A → string → option JsVal)
    (w : World) (s : Store A) key :
  reachable w → key ∈ builtin_functions → own s !! key = None →
  (∀ r, proto s = Some r → fields r key = None) →
  store_get fields (objectPrototype w) s key = Builtin key.
Proof.
  intros [Hop _]%reachable_pollution_bounded Hk Hown Hfields.
  destruct (builtin_function_facts key Hk) as (Hnp & Hnn & _).
  unfold store_get, object_prototype_get. rewrite Hown.
  rewrite bool_decide_false by done.
  assert (objectPrototype w !! key = None) as ->.
  { destruct (objectPrototype w !! key) eqn:He; [|done]. by apply Hop in He. }
  rewrite bool_decide_true by done.
  destruct (proto s) as [r|]; [|done]. by rewrite (Hfields r).
Qed.

(** X16. In every reachable state, a verification for a phone number
    that is the name of a function of [Object.prototype] and has no
    record is answered by the error middleware with status 500, not with
    NotFound, and changes nothing. *)
Theorem function_name_verification_is_500
    (w : World) (now : Z) (key : string) (otp_in : JsVal) :
  reachable w →
  key ∈ builtin_functions →
  own (otpStore w) !! key = None →
  truthy otp_in = true →
  verify_otp w now (JStr key) otp_in
  = (w, reply 500 false "An internal server error occurred.").
Proof.
  intros Hreach Hk Hown Hv.
  destruct (builtin_function_facts key Hk) as (_ & _ & Ho & He & Ht).
  unfold verify_otp. rewrite Ht, Hv. simpl.
  unfold otp_lookup.
  rewrite (inherited_function_lookup otp_fields w) by
    (try done; intros r _; unfold otp_fields; by rewrite !bool_decide_false).
  reflexivity.
Qed.

Lemma function_name_verification_is_500_witness :
  verify_otp issued 2000 (JStr "hasOwnProperty") (JStr "123456")
  = (issued, reply 500 false "An internal server error occurred.").
Proof.
  apply (function_name_verification_is_500 issued 2000 "hasOwnProperty"
           (JStr "123456")).
  - apply reachable_issued.
  - apply in_by_evaluation. vm_compute; reflexivity.
  - vm_compute; reflexivity.
  - reflexivity.
Defined.

Lemma user_lookup_function_name w key :
  reachable w → key ∈ builtin_functions →
  own (userStore w) !! key = None →
  user_lookup w key = Builtin key.
Proof.
  intros Hreach Hk Hown.
  destruct (builtin_function_facts key Hk) as (_ & Hnn & _).
  apply inherited_function_lookup; try done.
  intros r _. unfold profile_fields.
  rewrite !bool_decide_false; [done|..]; intros ->; apply Hnn;
    unfold profile_names; in_list.
Qed.

(** X17. In every reachable state, for a phone number that is the name
    of a function of [Object.prototype] and has no profile record, the
    fetch and the update are both answered 200 with [success: true]
    instead of 404; the update leaves both stores as they were. *)
Theorem function_name_profile_is_found
    (w : World) (key : string) (name' about' : JsVal) (file : option string) :
  reachable w →
  key ∈ builtin_functions →
  own (userStore w) !! key = None →
  get_profile w key = mkResponse 200 true None (Some (Builtin key)) ∧
  (put_profile w key name' about' file).2
  = mkResponse 200 true (Some "Profile updated successfully.")
      (Some (Builtin key)) ∧
  userStore (put_profile w key name' about' file).1 = userStore w ∧
  otpStore (put_profile w key name' about' file).1 = otpStore w.
Proof.
  intros Hreach Hk Hown.
  pose proof (user_lookup_function_name w key Hreach Hk Hown) as Hl.
  pose proof (user_lookup_put_profile w key name' about' file) as Hl'.
  rewrite Hl in Hl'.
  unfold get_profile. rewrite Hl. split; [done|].
  unfold put_profile, update_profile in *. rewrite Hl in *. simpl in *. by rewrite Hl'.
Qed.

Lemma function_name_profile_is_found_witness :
  get_profile created "valueOf"
  = mkResponse 200 true None (Some (Builtin "valueOf")) ∧
  (put_profile created "valueOf" (JStr "x") JUndefined None).2
  = mkResponse 200 true (Some "Profile updated successfully.")
      (Some (Builtin "valueOf")) ∧
  userStore (put_profile created "valueOf" (JStr "x") JUndefined None).1
  = userStore created ∧
  otpStore (put_profile created "valueOf" (JStr "x") JUndefined None).1
  = otpStore created.
Proof.
  apply (function_name_profile_is_found created "valueOf" (JStr "x")
           JUndefined None).
  - apply (reach_handle initial (PostProfile (JStr "A") (JStr "+1") None)).
    apply reach_initial.
  - apply in_by_evaluation. vm_compute; reflexivity.
  - vm_compute; reflexivity.
Defined.

(** ** Keys are strings *)

Lemma pretty_N_go_digits (x : N) (s : string) :
  all_digits s = true →
  all_digits (pretty_N_go x s) = true ∧
  (String.length s ≤ String.length (pretty_N_go x s))%nat.
Proof.
  revert s. induction (N.lt_wf_0 x) as [x _ IH]. intros s Hs.
  assert (x = 0 ∨ 0 < x)%N as [->|Hpos] by lia.
  - by rewrite pretty_N_go_0.
  - rewrite pretty_N_go_step by done.
    destruct (IH (x `div` 10)%N (N.div_lt x 10 Hpos eq_refl)
                (String (pretty_N_char (x `mod` 10)) s)) as [Hd Hl].
    { simpl. by rewrite pretty_N_char_digit. }
    split; [done|]. simpl in Hl. lia.
Qed.

(** The decimal form of a number that is not negative: digits only, and
    at least one. *)
Lemma Number_toString_digits (n : Z) :
  0 ≤ n →
  all_digits (Number_toString n) = true ∧ Number_toString n ≠ EmptyString.
Proof.
  intros Hn. unfold Number_toString. destruct n as [|p|p]; [done| |lia].
  change (pretty (Z.pos p)) with (pretty (N.pos p)).
  unfold pretty, pretty_N. rewrite decide_False by done.
  rewrite pretty_N_go_step by lia.
  destruct (pretty_N_go_digits (N.pos p `div` 10)
              (String (pretty_N_char (N.pos p `mod` 10)) EmptyString))
    as [Hd Hl].
  { simpl. by rewrite pretty_N_char_digit. }
  split; [done|]. intros Heq. rewrite Heq in Hl. simpl in Hl. lia.
Qed.

Lemma Number_toString_truthy (n : Z) : truthy (JStr (Number_toString n)) = true.
Proof.
  simpl. destruct (Number_toString n) eqn:Hs; [|done].
  destruct n as [|p|p]; [done| |done].
  by destruct (Number_toString_digits (Z.pos p)).
Qed.

(** X18. The stores are keyed by the string form of the phone number: a
    code issued for a phone number sent as a JSON number is verified
    under the JSON string of its decimal digits, and the other way
    round. *)
Theorem number_and_string_share_a_record
    (w : World) (now x : Z) (sms : SmsResult) (n t : Z) :
  reachable w →
  n ≠ 0 →
  Z.abs n ≤ 2 ^ 53 →
  t ≤ now + TTL →
  (verify_otp (send_otp w now x sms (JNum n)).1 t (JStr (Number_toString n))
     (JStr (generate_otp x))).2 = Verified ∧
  (verify_otp (send_otp w now x sms (JStr (Number_toString n))).1 t (JNum n)
     (JStr (generate_otp x))).2 = Verified.
Proof.
  intros Hreach Hn _ Ht.
  assert (truthy (JNum n) = true) as HP1.
  { simpl. by destruct (Z.eqb_spec n 0). }
  pose proof (Number_toString_truthy n) as HP2.
  pose proof (otp_lookup_send_otp w now x sms (JNum n)
                (reachable_wf _ Hreach) HP1) as Hr1.
  pose proof (otp_lookup_send_otp w now x sms (JStr (Number_toString n))
                (reachable_wf _ Hreach) HP2) as Hr2.
  split.
  - rewrite (verify_otp_record _ t (JStr (Number_toString n)) _ _ HP2
               (generate_otp_truthy x) Hr1).
    simpl. rewrite gtb_within by done. by same_code.
  - rewrite (verify_otp_record _ t (JNum n) _ _ HP1
               (generate_otp_truthy x) Hr2).
    simpl. rewrite gtb_within by done. by same_code.
Qed.

Lemma number_and_string_share_a_record_witness :
  (verify_otp
     (send_otp initial 1000 23456 (SmsSent "SM1") (JNum 15551234)).1 2000
     (JStr (Number_toString 15551234)) (JStr (generate_otp 23456))).2 = Verified ∧
  (verify_otp
     (send_otp initial 1000 23456 (SmsSent "SM1")
        (JStr (Number_toString 15551234))).1 2000
     (JNum 15551234) (JStr (generate_otp 23456))).2 = Verified.
Proof.
  apply (number_and_string_share_a_record initial 1000 23456 (SmsSent "SM1")
           15551234 2000).
  - apply reach_initial.
  - discriminate.
  - vm_compute; discriminate.
  - vm_compute; discriminate.
Defined.

(** ** The CORS allow-list *)

Lemma indexOf_from_spec (i : Z) (l : list string) (x : string) :
  (indexOf_from i l x = -1 ∧ x ∉ l ∨
   i ≤ indexOf_from i l x < i + Z.of_nat (List.length l) ∧ x ∈ l) ∨ i < 0.
Proof.
  destruct (Z.lt_ge_cases i 0) as [?|Hi]; [by right|]. left.
  revert i Hi. induction l as [|y l IH]; intros i Hi; simpl.
  - left. split; [done|]. apply not_elem_of_nil.
  - destruct (String.eqb_spec y x) as [->|Hne].
    + right. split; [lia | apply list_elem_of_here].
    + destruct (IH (i + 1)) as [[Hm Hn]|[Hb Hin]]; [lia|..].
      * left. split; [done|]. by apply not_elem_of_cons.
      * right. split; [lia | by apply list_elem_of_further].
Qed.

(** X19. The origin check allows a request exactly when it carries no
    Origin header, an empty one, or one that is an element of the
    allow-list; it passes an error to its callback exactly when it does
    not allow. *)
Theorem cors_allows_listed_origins_only (origin : option string) :
  ((cors_origin origin).2 = true ↔
   origin = None ∨ origin = Some EmptyString ∨
   ∃ o, origin = Some o ∧ o ∈ allowedOrigins) ∧
  ((cors_origin origin).1 = None ↔ (cors_origin origin).2 = true).
Proof.
  unfold cors_origin. destruct origin as [o|]; [|by split; split; auto].
  destruct (String.eqb_spec o EmptyString) as [->|Hne].
  { split; split; auto. }
  unfold indexOf.
  destruct (indexOf_from_spec 0 allowedOrigins o) as [[[Hm Hn]|[Hb Hin]]|?];
    [| |lia].
  - rewrite Hm. simpl. split; split; try done.
    intros [?|[[= ->]|(o' & [= <-] & Hin)]]; done.
  - destruct (Z.eqb_spec (indexOf_from 0 allowedOrigins o) (-1)); [lia|].
    simpl. split; split; try done. intros _. right. right. eauto.
Qed.

(** X20. The match against the allow-list is exact: an allowed origin
    followed by any further characters is refused. *)
Theorem cors_match_is_exact (o suffix : string) :
  o ∈ allowedOrigins →
  suffix ≠ EmptyString →
  (cors_origin (Some o)).2 = true ∧
  (cors_origin (Some (o +:+ suffix))).2 = false.
Proof.
  unfold allowedOrigins. intros Ho Hs.
  destruct suffix as [|c suffix]; [done|].
  repeat (apply elem_of_cons in Ho as [->|Ho]);
    [..|by apply elem_of_nil in Ho]; split; reflexivity.
Qed.

Lemma cors_match_is_exact_witness :
  (cors_origin (Some "https://textify.onrender.com")).2 = true ∧
  (cors_origin (Some ("https://textify.onrender.com" +:+ ".evil.example"))).2
  = false.
Proof.
  apply (cors_match_is_exact "https://textify.onrender.com" ".evil.example").
  - apply in_by_evaluation. vm_compute; reflexivity.
  - discriminate.
Defined.

(** ** Upload file names *)

Lemma digits_dash_unique (d1 d2 e1 e2 : string) :
  all_digits d1 = true → all_digits d2 = true →
  d1 +:+ String "-" e1 = d2 +:+ String "-" e2 →
  d1 = d2 ∧ e1 = e2.
Proof.
  revert d2. induction d1 as [|c d1 IH]; intros [|c' d2] H1 H2 Heq;
    simpl in *.
  - by injection Heq as ->.
  - injection Heq as <- _. by apply andb_true_iff in H2 as [? _].
  - injection Heq as -> _. by apply andb_true_iff in H1 as [? _].
  - injection Heq as -> Heq.
    apply andb_true_iff in H1 as [_ H1]. apply andb_true_iff in H2 as [_ H2].
    destruct (IH d2 H1 H2 Heq) as [-> ->]. done.
Qed.

(** X21. Two uploads get the same file name exactly when they are
    stored at the same clock reading and their original names have the
    same extension; nothing else of the original name enters the file
    name. *)
Theorem upload_filenames_collide_on_clock_and_extension
    (now1 now2 : Z) (ext1 ext2 : string) :
  0 ≤ now1 → 0 ≤ now2 →
  upload_filename now1 ext1 = upload_filename now2 ext2
  ↔ now1 = now2 ∧ ext1 = ext2.
Proof.
  intros H1 H2. split; [|by intros [-> ->]].
  unfold upload_filename. intros Heq.
  destruct (Number_toString_digits now1 H1) as [Hd1 _].
  destruct (Number_toString_digits now2 H2) as [Hd2 _].
  destruct (digits_dash_unique _ _ _ _ Hd1 Hd2 Heq) as [Hn ->].
  split; [|done]. unfold Number_toString in Hn. by apply (inj pretty) in Hn.
Qed.

Lemma upload_filenames_collide_on_clock_and_extension_witness :
  upload_filename 1700000000000 ".png" = upload_filename 1700000000000 ".png"
  ↔ 1700000000000 = 1700000000000 ∧ ".png" = ".png".
Proof.
  apply (upload_filenames_collide_on_clock_and_extension
           1700000000000 1700000000000 ".png" ".png").
  - vm_compute; discriminate.
  - vm_compute; discriminate.
Defined.

(** ** Updates of different fields *)

(** Assigning a name and then an about text, or first the about text
    and then the name, is assigning both. *)
Lemma update_profile_name_and_about w phoneNumber name' about' :
  (update_profile (update_profile w phoneNumber name' JUndefined None).1
     phoneNumber JUndefined about' None).1
  = (update_profile w phoneNumber name' about' None).1 ∧
  (update_profile (update_profile w phoneNumber JUndefined about' None).1
     phoneNumber name' JUndefined None).1
  = (update_profile w phoneNumber name' about' None).1.
Proof.
  pose proof (user_lookup_update_profile w phoneNumber name' JUndefined None)
    as H1.
  pose proof (user_lookup_update_profile w phoneNumber JUndefined about' None)
    as H2.
  set (w1 := (update_profile w phoneNumber name' JUndefined None).1) in *.
  set (w2 := (update_profile w phoneNumber JUndefined about' None).1) in *.
  unfold update_profile. rewrite H1, H2. clear H1 H2.
  subst w1 w2. unfold update_profile.
  destruct (user_lookup w phoneNumber) as [r|r|v| |f] eqn:Hl;
    unfold assign_fields, assign_extras, with_userStore; simpl.
  - destruct (truthy name'), (truthy about'); simpl;
      by rewrite !insert_insert_eq.
  - by destruct (truthy name'), (truthy about').
  - by destruct (negb (truthy v)).
  - destruct (truthy name'), (truthy about'); simpl; split; try done.
    by rewrite insert_insert_ne.
  - by destruct (truthy name'), (truthy about').
Qed.

(** After an update served while [Object.prototype] had neither name nor
    about, a field a later request for the same phone number leaves out
    inherits at most the value that update assigned, to the object the
    later request assigns to: reading it changes nothing. *)
Lemma inherited_reread w phoneNumber name' about' name2 about2 :
  objectPrototype w !! "name" = None →
  objectPrototype w !! "about" = None →
  put_profile (update_profile w phoneNumber name' about' None).1
    phoneNumber name2 about2 None
  = update_profile (update_profile w phoneNumber name' about' None).1
      phoneNumber name2 about2 None.
Proof.
  intros Hn Ha. unfold put_profile.
  pose proof (user_lookup_update_profile w phoneNumber name' about' None) as Hl.
  set (w' := (update_profile w phoneNumber name' about' None).1) in *.
  assert (objectPrototype w' = objectPrototype w ∨
          user_lookup w' phoneNumber = ObjectPrototype ∧
          objectPrototype w'
          = assign_extras id true name' about' None (objectPrototype w))
    as [Hop|[Hu Hop]].
  { subst w'. unfold update_profile in *.
    destruct (negb (ref_truthy (user_lookup w phoneNumber))); [by left|].
    destruct (user_lookup w phoneNumber); simpl in *; auto. }
  { by rewrite !body_field_clean by (by rewrite Hop). }
  assert (assign_extras id true (body_field w' None "name" name2)
            (body_field w' None "about" about2) None (objectPrototype w')
          = assign_extras id true name2 about2 None (objectPrototype w'))
    as Hsame.
  { assert (objectPrototype w' !! "name"
            = if truthy name' then Some name' else None) as Hln.
    { rewrite Hop. unfold assign_extras, id. rewrite andb_true_r.
      repeat case_match;
        by rewrite ?lookup_insert_ne, ?lookup_insert_eq by done. }
    assert (objectPrototype w' !! "about"
            = if truthy about' then Some about' else None) as Hla.
    { rewrite Hop. unfold assign_extras, id. rewrite andb_true_r.
      repeat case_match;
        by rewrite ?lookup_insert_ne, ?lookup_insert_eq by done. }
    assert (∀ v, truthy v = true → objectPrototype w' !! "name" = Some v →
              <["name" := v]> (objectPrototype w') = objectPrototype w')
      as Hin by (intros; by apply insert_id).
    unfold body_field, assign_extras, id. rewrite !andb_true_r.
    apply map_eq. intros k.
    destruct name2, about2; try done; rewrite ?Hln, ?Hla;
      destruct (truthy name') eqn:Hn', (truthy about') eqn:Ha'; simpl;
      rewrite ?Hn', ?Ha'; simpl;
      repeat case_match; rewrite ?lookup_insert; repeat case_decide;
      subst; try done; by rewrite ?Hln, ?Hla, ?Hn', ?Ha'. }
  unfold update_profile. rewrite Hu.
  cbv beta iota zeta delta [ref_truthy negb]. by rewrite Hsame.
Qed.

(** X22. While [Object.prototype] has neither a name nor an about
    property, an update sending only a name and an update sending only
    an about text can be served in either order: both orders leave the
    state that one update sending both leaves. *)
Theorem updates_of_name_and_about_commute
    (w : World) (phoneNumber : string) (name' about' : JsVal) :
  objectPrototype w !! "name" = None →
  objectPrototype w !! "about" = None →
  (put_profile (put_profile w phoneNumber name' JUndefined None).1
     phoneNumber JUndefined about' None).1
  = (put_profile w phoneNumber name' about' None).1 ∧
  (put_profile (put_profile w phoneNumber JUndefined about' None).1
     phoneNumber name' JUndefined None).1
  = (put_profile w phoneNumber name' about' None).1.
Proof.
  intros Hn Ha.
  destruct (update_profile_name_and_about w phoneNumber name' about')
    as [H1 H2].
  assert (∀ n a, put_profile w phoneNumber n a None
                 = update_profile w phoneNumber n a None) as Hw.
  { intros n a. unfold put_profile. by rewrite !body_field_clean. }
  rewrite !Hw, !inherited_reread by done. by split.
Qed.

Lemma updates_of_name_and_about_commute_witness :
  (put_profile (put_profile created "+1" (JStr "B") JUndefined None).1
     "+1" JUndefined (JStr "hi") None).1
  = (put_profile created "+1" (JStr "B") (JStr "hi") None).1 ∧
  (put_profile (put_profile created "+1" JUndefined (JStr "hi") None).1
     "+1" (JStr "B") JUndefined None).1
  = (put_profile created "+1" (JStr "B") (JStr "hi") None).1.
Proof.
  apply (updates_of_name_and_about_commute created "+1" (JStr "B") (JStr "hi")).
  - vm_compute; reflexivity.
  - vm_compute; reflexivity.
Defined.

(** ** Status codes *)

(** X23. Apart from a send-otp request whose delivery failed (the status
    then may come from the provider's error), every reply has status
    200, 400, 404 or 500, and [success] is true exactly in the replies
    with status 200. *)
Theorem reply_status_matches_success (w : World) (req : Request) :
  failed_delivery req = false →
  status (handle w req).2 ∈ [200; 400; 404; 500] ∧
  (success (handle w req).2 = true ↔ status (handle w req).2 = 200).
Proof.
  destruct req as [now x sms P|now P v|n P file|P n a file|P]; simpl.
  - intros Hd. unfold send_otp. destruct (negb (truthy P)); simpl.
    + split; [in_list | done].
    + destruct sms; [|done]. simpl. split; [in_list | done].
  - intros _. unfold verify_otp.
    repeat case_match; simpl; (split; [in_list | done]).
  - intros _. unfold post_profile. case_match; simpl; (split; [in_list | done]).
  - intros _. unfold put_profile, update_profile. case_match; simpl; (split; [in_list | done]).
  - intros _. unfold get_profile. case_match; simpl; (split; [in_list | done]).
Qed.

Lemma reply_status_matches_success_witness :
  status (handle issued (VerifyOtp 2000 (JStr "+15551234") (JStr "123456"))).2
    ∈ [200; 400; 404; 500] ∧
  (success
     (handle issued (VerifyOtp 2000 (JStr "+15551234") (JStr "123456"))).2
   = true ↔
   status
     (handle issued (VerifyOtp 2000 (JStr "+15551234") (JStr "123456"))).2
   = 200).
Proof.
  apply (reply_status_matches_success issued
           (VerifyOtp 2000 (JStr "+15551234") (JStr "123456"))).
  reflexivity.
Defined.
